(** * The restaurant application (app [sim]): routes, test factories, views

    A shallow embedding of
      - [sim/urls.py]       (the URL configuration of the app),
      - [sim/factories.py]  (the factory_boy test factories),
      - [sim/tests/test_views.py] (the view tests, as executable checks),
    together with the framework operations these files call: [str] and
    f-strings on integers, [Decimal(int)], [path] / [reverse] / [resolve] of
    [django.urls], [factory.Sequence] and the Faker calls.

    [sim/views.py], [sim/models.py] and the form class are not among these
    sources; the four view functions and the form are modelled from the
    specification and are marked as such. *)

From Stdlib Require Import ZArith Lia Ascii String List.
From Stdlib Require Import DecimalString DecimalN DecimalZ DecimalPos.
From stdpp Require Import base option list gmap strings.

Open Scope Z_scope.

(* ===================================================================== *)
(** * Python strings and integers *)
(* ===================================================================== *)

Module Py.

(** The text [str(n)] gives for a Python [int]: decimal digits, most
    significant first, no leading zeros, ["0"] for zero and a leading ["-"]
    for negatives. This is also what an f-string replacement field [{n}]
    produces. The interpreter refuses the conversion for an integer of more
    than [max_str_digits] digits; [str_limited] below adds that check. *)
Definition str (n : Z) : string := NilZero.string_of_int (Z.to_int n).

(** The interpreter's limit on conversions between [int] and [str],
    [sys.get_int_max_str_digits()]: 4300 unless configured otherwise. *)
Definition max_str_digits : nat := 4300.

(** [str(n)] as the interpreter runs it: [None] stands for the [ValueError]
    raised when [n] has more than [max_str_digits] digits, the sign not
    counted. *)
Definition str_limited (n : Z) : option string :=
  if (String.length (str (Z.abs n)) <=? max_str_digits)%nat
  then Some (str n) else None.

(** The character class [[0-9]] of the [re] module. *)
Definition is_digit (c : ascii) : bool :=
  let k := N_of_ascii c in ((48 <=? k) && (k <=? 57))%N.

(** The longest prefix made of digits and what follows it: how the greedy
    [[0-9]+] consumes its input. *)
Fixpoint span_digits (s : string) : string * string :=
  match s with
  | EmptyString => (EmptyString, EmptyString)
  | String c s' =>
      if is_digit c
      then let '(ds, rest) := span_digits s' in (String c ds, rest)
      else (EmptyString, s)
  end.

(** Whether a string matches [[0-9]*]. *)
Fixpoint all_digits (s : string) : bool :=
  match s with
  | EmptyString => true
  | String c s' => is_digit c && all_digits s'
  end.

(** The number [int(s)] gives for a string of the class [[0-9]+] (leading
    zeros allowed); [None] stands for [ValueError]. The interpreter's limit on
    the number of digits is added by [int_limited] below. *)
Definition int_of_digits (s : string) : option Z :=
  match s with
  | EmptyString => None
  | _ => (fun d => Z.of_N (N.of_uint d)) <$> NilEmpty.uint_of_string s
  end.

(** [int(s)] as the interpreter runs it: [ValueError] also for a string of
    more than [max_str_digits] digits, leading zeros included. *)
Definition int_limited (s : string) : option Z :=
  if (String.length s <=? max_str_digits)%nat then int_of_digits s else None.

(** [s.startswith(p)] together with the remainder [s[len(p):]]. *)
Fixpoint strip_prefix (p s : string) : option string :=
  match p, s with
  | EmptyString, _ => Some s
  | String a p', String b s' =>
      if Ascii.eqb a b then strip_prefix p' s' else None
  | String _ _, EmptyString => None
  end.

(** [s.partition(sep)] for a one-character separator: [None] when the
    separator does not occur. *)
Fixpoint partition (sep : ascii) (s : string) : option (string * string) :=
  match s with
  | EmptyString => None
  | String c s' =>
      if Ascii.eqb c sep then Some (EmptyString, s')
      else (fun '(a, b) => (String c a, b)) <$> partition sep s'
  end.

End Py.


(* ===================================================================== *)
(** * [sim/urls.py]: the URL configuration *)
(* ===================================================================== *)

Module Urls.

(** The view callables that [urls.py] refers to, [views.restaurant_list] and
    so on. *)
Inductive View : Type :=
  | restaurant_list
  | restaurant_create
  | restaurant_update
  | restaurant_delete.

#[global] Instance View_eq_dec : EqDecision View.
Proof. solve_decision. Defined.

(** A route of [django.urls.path] once compiled: literal text and captured
    parameters [<converter:name>]. *)
Inductive Segment : Type :=
  | Lit (text : string)
  | Param (converter name : string).

Definition flush (lit : string) : list Segment :=
  match lit with EmptyString => [] | _ => [Lit lit] end.

Definition mk_param (p : string) : Segment :=
  match Py.partition ":" p with
  | Some (conv, name) => Param conv name
  | None => Param "str" p
  end.

(** One pass over the route text: [lit] is the literal read so far, [par] the
    text read since an opening angle bracket. *)
Fixpoint route_segments (s lit : string) (par : option string) : list Segment :=
  match s with
  | EmptyString => flush lit
  | String c s' =>
      match par with
      | None =>
          if Ascii.eqb c "<"
          then flush lit ++ route_segments s' EmptyString (Some EmptyString)
          else route_segments s' (lit +:+ String c EmptyString) None
      | Some p =>
          if Ascii.eqb c ">"
          then mk_param p :: route_segments s' EmptyString None
          else route_segments s' EmptyString (Some (p +:+ String c EmptyString))
      end
  end.

Record URLPattern : Type := {
  route : string;
  callback : View;
  pattern_name : string;
}.

(** [path(route, view, name=...)] *)
Definition path (r : string) (v : View) (name : string) : URLPattern :=
  {| route := r; callback := v; pattern_name := name |}.

Definition segments (p : URLPattern) : list Segment :=
  route_segments (route p) EmptyString None.

Definition app_name : string := "sim".

Definition urlpatterns : list URLPattern := [
  path "restaurants/" restaurant_list "restaurant_list";
  path "restaurants/new/" restaurant_create "restaurant_create";
  path "restaurants/<int:pk>/edit/" restaurant_update "restaurant_edit";
  path "restaurants/<int:pk>/delete/" restaurant_delete "restaurant_delete"
].

(** Matching a path against a compiled route, keys being integers of any
    size ([UrlsLimited] below has the interpreter's limit on their digits). A literal has to be a prefix, an
    [int] parameter takes the digits [[0-9]+] and converts them with [int], and
    an endpoint route has to consume the whole path. Only the [int] converter
    occurs in this configuration; a route with another converter matches
    nothing here. In every route of [urlpatterns] a parameter is followed by a
    literal that starts with a slash, so the greedy digit run is the only way
    the pattern can match. *)
Fixpoint match_route (segs : list Segment) (p : string)
  : option (list (string * Z)) :=
  match segs with
  | [] => match p with EmptyString => Some [] | _ => None end
  | Lit l :: segs' =>
      match Py.strip_prefix l p with
      | Some rest => match_route segs' rest
      | None => None
      end
  | Param conv name :: segs' =>
      if String.eqb conv "int" then
        let '(ds, rest) := Py.span_digits p in
        match Py.int_of_digits ds with
        | Some v =>
            match match_route segs' rest with
            | Some kw => Some ((name, v) :: kw)
            | None => None
            end
        | None => None
        end
      else None
  end.

Record ResolverMatch : Type := {
  func : View;
  kwargs : list (string * Z);
  url_name : string;
}.

(** [resolve], relative to the app's URL configuration: the first pattern
    that matches wins, [None] is [Resolver404]. Paths are taken below the
    prefix under which the project's root configuration mounts the app. *)
Fixpoint resolve_in (pats : list URLPattern) (p : string) : option ResolverMatch :=
  match pats with
  | [] => None
  | pat :: pats' =>
      match match_route (segments pat) p with
      | Some kw =>
          Some {| func := callback pat; kwargs := kw; url_name := pattern_name pat |}
      | None => resolve_in pats' p
      end
  end.

Definition resolve (p : string) : option ResolverMatch := resolve_in urlpatterns p.

(** The candidate URL of a route for positional arguments: each parameter is
    replaced by [str] of its argument ([to_url] of the [int] converter);
    [None] when the number of arguments differs from the number of
    parameters. *)
Fixpoint substitute (segs : list Segment) (args : list Z) : option string :=
  match segs, args with
  | [], [] => Some EmptyString
  | [], _ :: _ => None
  | Lit l :: segs', _ => (fun s => l +:+ s) <$> substitute segs' args
  | Param _ _ :: segs', a :: args' =>
      (fun s => Py.str a +:+ s) <$> substitute segs' args'
  | Param _ _ :: _, [] => None
  end.

(** A candidate is only returned if it matches the route it was built from. *)
Fixpoint reverse_in (pats : list URLPattern) (name : string) (args : list Z)
  : option string :=
  match pats with
  | [] => None
  | pat :: pats' =>
      if String.eqb (pattern_name pat) name then
        match substitute (segments pat) args with
        | Some candidate =>
            match match_route (segments pat) candidate with
            | Some _ => Some candidate
            | None => reverse_in pats' name args
            end
        | None => reverse_in pats' name args
        end
      else reverse_in pats' name args
  end.

(** [reverse(viewname, args=[...])] for a namespaced name ["sim:<name>"],
    relative to the app's URL configuration; [None] is [NoReverseMatch]. *)
Definition reverse (viewname : string) (args : list Z) : option string :=
  match Py.partition ":" viewname with
  | Some (ns, name) =>
      if String.eqb ns app_name then reverse_in urlpatterns name args else None
  | None => None
  end.

End Urls.

(* ===================================================================== *)
(** * The URL configuration under the interpreter's conversion limit *)
(* ===================================================================== *)

(** The [int] converter is [int(value)] on the way in and [str(value)] on the
    way out, and both raise [ValueError] beyond [Py.max_str_digits] digits.
    Django takes a [ValueError] of [to_python] as "this route does not match"
    and a [ValueError] of [to_url] as "this candidate does not fit". These are
    [Urls.match_route], [Urls.resolve] and [Urls.reverse] with the two limited
    conversions in place of the unlimited ones. *)
Module UrlsLimited.

Import Urls.

Fixpoint match_route (segs : list Segment) (p : string)
  : option (list (string * Z)) :=
  match segs with
  | [] => match p with EmptyString => Some [] | _ => None end
  | Lit l :: segs' =>
      match Py.strip_prefix l p with
      | Some rest => match_route segs' rest
      | None => None
      end
  | Param conv name :: segs' =>
      if String.eqb conv "int" then
        let '(ds, rest) := Py.span_digits p in
        match Py.int_limited ds with
        | Some v =>
            match match_route segs' rest with
            | Some kw => Some ((name, v) :: kw)
            | None => None
            end
        | None => None
        end
      else None
  end.

Fixpoint resolve_in (pats : list URLPattern) (p : string) : option ResolverMatch :=
  match pats with
  | [] => None
  | pat :: pats' =>
      match match_route (segments pat) p with
      | Some kw =>
          Some {| func := callback pat; kwargs := kw; url_name := pattern_name pat |}
      | None => resolve_in pats' p
      end
  end.

Definition resolve (p : string) : option ResolverMatch := resolve_in urlpatterns p.

Fixpoint substitute (segs : list Segment) (args : list Z) : option string :=
  match segs, args with
  | [], [] => Some EmptyString
  | [], _ :: _ => None
  | Lit l :: segs', _ => (fun s => l +:+ s) <$> substitute segs' args
  | Param _ _ :: segs', a :: args' =>
      match Py.str_limited a with
      | Some t => (fun s => t +:+ s) <$> substitute segs' args'
      | None => None
      end
  | Param _ _ :: _, [] => None
  end.

Fixpoint reverse_in (pats : list URLPattern) (name : string) (args : list Z)
  : option string :=
  match pats with
  | [] => None
  | pat :: pats' =>
      if String.eqb (pattern_name pat) name then
        match substitute (segments pat) args with
        | Some candidate =>
            match match_route (segments pat) candidate with
            | Some _ => Some candidate
            | None => reverse_in pats' name args
            end
        | None => reverse_in pats' name args
        end
      else reverse_in pats' name args
  end.

Definition reverse (viewname : string) (args : list Z) : option string :=
  match Py.partition ":" viewname with
  | Some (ns, name) =>
      if String.eqb ns app_name then reverse_in urlpatterns name args else None
  | None => None
  end.

End UrlsLimited.

(* ===================================================================== *)
(** * [decimal.Decimal] *)
(* ===================================================================== *)

(** A finite [Decimal] as [as_tuple()] shows it: sign, coefficient and
    exponent; the value is [(-1)^sign * coefficient * 10^exponent]. *)
Record Decimal : Type := {
  sign : bool;
  coefficient : N;
  exponent : Z;
}.

#[global] Instance Decimal_eq_dec : EqDecision Decimal.
Proof. solve_decision. Defined.

(** [Decimal(n)] for an [int]: exact, with exponent 0. *)
Definition Decimal_of_int (n : Z) : Decimal :=
  {| sign := n <? 0; coefficient := Z.abs_N n; exponent := 0 |}.

(** Number of digits of the coefficient, [len(d.as_tuple().digits)]: the
    precision the value needs. *)
Definition precision (d : Decimal) : nat :=
  Decimal.nb_digits (N.to_uint (coefficient d)).

(** Rounding to a precision of [prec] significant digits, as a context with
    [prec] digits and [ROUND_HALF_EVEN] does it ([Context(prec).plus(d)]): a
    zero loses its sign, another value that fits is returned as it is,
    otherwise the surplus digits are dropped, the last kept digit is adjusted
    and the exponent is raised. Exponents are taken to lie within the
    context's range. *)
Definition Decimal_round (prec : nat) (d : Decimal) : Decimal :=
  if (coefficient d =? 0)%N
  then {| sign := false; coefficient := 0; exponent := exponent d |}
  else if (precision d <=? prec)%nat then d
  else
    let k := Z.of_nat (precision d - prec) in
    let c := Z.of_N (coefficient d) in
    let q := c / 10 ^ k in
    let r := c mod 10 ^ k in
    let half := 5 * 10 ^ (k - 1) in
    let q' := if (half <? r) || ((r =? half) && Z.odd q) then q + 1 else q in
    if q' =? 10 ^ Z.of_nat prec
    then {| sign := sign d; coefficient := Z.to_N (10 ^ (Z.of_nat prec - 1));
            exponent := exponent d + k + 1 |}
    else {| sign := sign d; coefficient := Z.to_N q'; exponent := exponent d + k |}.

(** Number of digits after the decimal point. *)
Definition decimal_places (d : Decimal) : Z := Z.max 0 (- exponent d).

(* ===================================================================== *)
(** * Faker *)
(* ===================================================================== *)

Module Faker.

(** A [Faker] instance is a source of pseudo-random values. Its state is the
    outcome of every future draw, by provider, and the number of draws made
    so far. *)
Record t : Type := {
  addresses : nat -> string;
  phone_numbers : nat -> string;
  raw : nat -> Z;
  calls : nat;
}.

Definition tick (g : t) : t :=
  {| addresses := addresses g; phone_numbers := phone_numbers g;
     raw := raw g; calls := S (calls g) |}.

(** [fake.address()] *)
Definition address (g : t) : string * t := (addresses g (calls g), tick g).

(** [fake.phone_number()] *)
Definition phone_number (g : t) : string * t := (phone_numbers g (calls g), tick g).

(** [random.randint(a, b)]: an integer [N] with [a <= N <= b]. *)
Definition randint (a b : Z) (g : t) : Z * t :=
  (a + raw g (calls g) mod (b - a + 1), tick g).

(** [fake.random_number(digits)] with the default [fix_len=False]:
    [randint(0, pow(10, digits) - 1)]. A negative [digits] raises
    [ValueError]; the type leaves that call out. *)
Definition random_number (digits : N) (g : t) : Z * t :=
  randint 0 (10 ^ Z.of_N digits - 1) g.

End Faker.

(* ===================================================================== *)
(** * [sim/factories.py] *)
(* ===================================================================== *)

(** The model classes that the factories import from [sim.models]. That file
    is not among the sources; of the models only what [factories.py] shows is
    used: the class names and the keyword arguments each factory passes. *)
Inductive ModelClass : Type := RestaurantModel | DishModel | IngredientModel.

(** The fields the factories pass to [Restaurant(...)]. *)
Record Restaurant : Type := {
  name : string;
  address_first_line : string;
  phone_number : string;
}.

#[global] Instance Restaurant_eq_dec : EqDecision Restaurant.
Proof. solve_decision. Defined.

(** What a declared attribute can hold besides strings and decimals: a model
    class itself, or an instance of [Restaurant]. *)
Inductive PyObject : Type :=
  | ClassObject (c : ModelClass)
  | RestaurantInstance (r : Restaurant).

Record Dish : Type := {
  dish_name : string;
  price : Decimal;
  restaurant : PyObject;
}.

Record Ingredient : Type := {
  ingredient_name : string;
  unit_price : Decimal;
}.

Module Factories.

(** The lambdas given to [factory.Sequence]. *)
Definition RestaurantFactory_name (n : Z) : string := "Restaurant " +:+ Py.str n.
Definition DishFactory_name (n : Z) : string := "Dish " +:+ Py.str n.
Definition IngredientFactory_name (n : Z) : string := "Ingredient " +:+ Py.str n.

(** The module once imported: the class attributes that were evaluated while
    the class bodies ran, the state of [fake], and the sequence counter of
    each factory. *)
Record Module_ : Type := {
  fake : Faker.t;
  RestaurantFactory_address_first_line : string;
  RestaurantFactory_phone_number : string;
  DishFactory_price : Decimal;
  DishFactory_restaurant : PyObject;
  IngredientFactory_unit_price : Decimal;
  RestaurantFactory_seq : Z;
  DishFactory_seq : Z;
  IngredientFactory_seq : Z;
}.

(** Importing the module runs the three class bodies top to bottom; every
    call on [fake] happens here, once. A sequence starts at 0. *)
Definition import (g0 : Faker.t) : Module_ :=
  let '(addr, g1) := Faker.address g0 in
  let '(phone, g2) := Faker.phone_number g1 in
  let '(n_dish, g3) := Faker.random_number 2%N g2 in
  let '(n_ingr, g4) := Faker.random_number 2%N g3 in
  {| fake := g4;
     RestaurantFactory_address_first_line := addr;
     RestaurantFactory_phone_number := phone;
     DishFactory_price := Decimal_of_int n_dish;
     DishFactory_restaurant := ClassObject RestaurantModel;
     IngredientFactory_unit_price := Decimal_of_int n_ingr;
     RestaurantFactory_seq := 0;
     DishFactory_seq := 0;
     IngredientFactory_seq := 0 |}.

(** [RestaurantFactory()]: the declarations become the keyword arguments of
    [Restaurant(...)], the sequence supplies [n] and moves on. *)
Definition RestaurantFactory (m : Module_) : Restaurant * Module_ :=
  ({| name := RestaurantFactory_name (RestaurantFactory_seq m);
      address_first_line := RestaurantFactory_address_first_line m;
      phone_number := RestaurantFactory_phone_number m |},
   {| fake := fake m;
      RestaurantFactory_address_first_line := RestaurantFactory_address_first_line m;
      RestaurantFactory_phone_number := RestaurantFactory_phone_number m;
      DishFactory_price := DishFactory_price m;
      DishFactory_restaurant := DishFactory_restaurant m;
      IngredientFactory_unit_price := IngredientFactory_unit_price m;
      RestaurantFactory_seq := RestaurantFactory_seq m + 1;
      DishFactory_seq := DishFactory_seq m;
      IngredientFactory_seq := IngredientFactory_seq m |}).

(** [DishFactory()] *)
Definition DishFactory (m : Module_) : Dish * Module_ :=
  ({| dish_name := DishFactory_name (DishFactory_seq m);
      price := DishFactory_price m;
      restaurant := DishFactory_restaurant m |},
   {| fake := fake m;
      RestaurantFactory_address_first_line := RestaurantFactory_address_first_line m;
      RestaurantFactory_phone_number := RestaurantFactory_phone_number m;
      DishFactory_price := DishFactory_price m;
      DishFactory_restaurant := DishFactory_restaurant m;
      IngredientFactory_unit_price := IngredientFactory_unit_price m;
      RestaurantFactory_seq := RestaurantFactory_seq m;
      DishFactory_seq := DishFactory_seq m + 1;
      IngredientFactory_seq := IngredientFactory_seq m |}).

(** [IngredientFactory()] *)
Definition IngredientFactory (m : Module_) : Ingredient * Module_ :=
  ({| ingredient_name := IngredientFactory_name (IngredientFactory_seq m);
      unit_price := IngredientFactory_unit_price m |},
   {| fake := fake m;
      RestaurantFactory_address_first_line := RestaurantFactory_address_first_line m;
      RestaurantFactory_phone_number := RestaurantFactory_phone_number m;
      DishFactory_price := DishFactory_price m;
      DishFactory_restaurant := DishFactory_restaurant m;
      IngredientFactory_unit_price := IngredientFactory_unit_price m;
      RestaurantFactory_seq := RestaurantFactory_seq m;
      DishFactory_seq := DishFactory_seq m;
      IngredientFactory_seq := IngredientFactory_seq m + 1 |}).

(** One use of the module: some factory is called and its instance dropped. *)
Inductive Call : Type := CallRestaurantFactory | CallDishFactory | CallIngredientFactory.

Definition call (c : Call) (m : Module_) : Module_ :=
  match c with
  | CallRestaurantFactory => (RestaurantFactory m).2
  | CallDishFactory => (DishFactory m).2
  | CallIngredientFactory => (IngredientFactory m).2
  end.

(** The module after a series of factory calls, oldest first. *)
Definition after (calls : list Call) (m : Module_) : Module_ :=
  foldl (fun m c => call c m) m calls.

(** What a factory call returns. *)
Inductive Instance : Type :=
  | RestaurantObj (r : Restaurant)
  | DishObj (d : Dish)
  | IngredientObj (i : Ingredient).

Definition instance_name (i : Instance) : string :=
  match i with
  | RestaurantObj r => name r
  | DishObj d => dish_name d
  | IngredientObj i => ingredient_name i
  end.

(** A factory call with the instance it returns. *)
Definition produce (c : Call) (m : Module_) : Instance * Module_ :=
  match c with
  | CallRestaurantFactory =>
      let '(r, m') := RestaurantFactory m in (RestaurantObj r, m')
  | CallDishFactory => let '(d, m') := DishFactory m in (DishObj d, m')
  | CallIngredientFactory =>
      let '(i, m') := IngredientFactory m in (IngredientObj i, m')
  end.

(** A series of factory calls, oldest first, with the instances returned. *)
Fixpoint run (calls : list Call) (m : Module_) : list Instance * Module_ :=
  match calls with
  | [] => ([], m)
  | c :: calls' =>
      let '(i, m') := produce c m in
      let '(rest, m'') := run calls' m' in
      (i :: rest, m'')
  end.

#[global] Instance Call_eq_dec : EqDecision Call.
Proof. solve_decision. Defined.

(** How many of the calls went to factory [c]. *)
Definition count_calls (c : Call) (calls : list Call) : Z :=
  Z.of_nat (length (List.filter (fun c' => bool_decide (c' = c)) calls)).

(** Every instance of a run carries the name its factory gives to some
    sequence number not below the counter the run started with. *)
Definition named_from (m : Module_) (i : Instance) : Prop :=
  match i with
  | RestaurantObj r =>
      exists k, RestaurantFactory_seq m <= k /\ name r = RestaurantFactory_name k
  | DishObj d =>
      exists k, DishFactory_seq m <= k /\ dish_name d = DishFactory_name k
  | IngredientObj x =>
      exists k, IngredientFactory_seq m <= k /\
                ingredient_name x = IngredientFactory_name k
  end.

(** Two states of the module that agree on every declared constant and on
    the state of [fake]; they may differ in the sequence counters. *)
Definition same_declarations (m m' : Module_) : Prop :=
  RestaurantFactory_address_first_line m' = RestaurantFactory_address_first_line m /\
  RestaurantFactory_phone_number m' = RestaurantFactory_phone_number m /\
  DishFactory_price m' = DishFactory_price m /\
  DishFactory_restaurant m' = DishFactory_restaurant m /\
  IngredientFactory_unit_price m' = IngredientFactory_unit_price m /\
  fake m' = fake m.

End Factories.

(* ===================================================================== *)
(** * The store of Restaurant records *)
(* ===================================================================== *)

Module Orm.

(** The table behind [Restaurant.objects]: rows by primary key. *)
Abbreviation Db := (gmap Z Restaurant).

(** Modelled from the spec: the "framework-assigned primary key" of a new
    row. Neither the database nor its settings are among the sources, and the
    specification does not say which key is chosen; here it is one more than
    the largest key in use, 1 for an empty table. What is proved below uses
    only that this key is positive and not in use. *)
Definition next_pk (db : Db) : Z := 1 + foldr Z.max 0 (map_to_list db).*1.

(** Modelled from the spec: [instance.save()] on an instance that has no
    primary key yet ("created via form submission", persisted by the
    framework): a row is inserted under the assigned key, which is returned
    as [instance.pk]. *)
Definition save (r : Restaurant) (db : Db) : Z * Db :=
  let pk := next_pk db in (pk, <[pk := r]> db).

(** [Restaurant.objects.all()] *)
Definition all (db : Db) : list (Z * Restaurant) := map_to_list db.

End Orm.

(* ===================================================================== *)
(** * Requests, responses and the model-backed form *)
(* ===================================================================== *)

Inductive Method : Type := GET | POST.

Record HttpRequest : Type := {
  method : Method;
  POST_data : gmap string string;
}.

Module Form.

(** Modelled from the spec: the form class of the Restaurant views, which
    is not among the sources. The specification speaks of model-backed forms,
    of "field presence implied by the test data" as the only invariant, and
    of the data the tests post as valid data: the fields are the keys the
    tests post, [name], [address] and [phone_number]. *)
Definition fields : list string := ["name"; "address"; "phone_number"]%string.

(** The submitted value of a field; a missing or empty value is no value. *)
Definition field (data : gmap string string) (f : string) : option string :=
  match data !! f with
  | Some v => if String.eqb v "" then None else Some v
  | None => None
  end.

(** Modelled from the spec: [is_valid()] and [cleaned_data] of that form.
    Every field is required, nothing else is checked (the phone number format
    is not validated). [None] means the form is not valid, [Some r] carries
    the cleaned record; [address] is the address first line of the record,
    the only address the data model has. *)
Definition clean (data : gmap string string) : option Restaurant :=
  match field data "name", field data "address",
        field data "phone_number" with
  | Some n, Some a, Some p =>
      Some {| name := n; address_first_line := a; phone_number := p |}
  | _, _, _ => None
  end.

Definition is_valid (data : gmap string string) : bool :=
  match clean data with Some _ => true | None => false end.

(** The fields that carry an error message. *)
Definition errors (data : gmap string string) : list string :=
  List.filter (fun f => match field data f with Some _ => false | None => true end)
    fields.

(** A form as the template sees it: the values shown in the inputs and the
    fields in error. *)
Record t : Type := {
  values : gmap string string;
  field_errors : list string;
}.

Definition empty_form : t := {| values := ∅; field_errors := [] |}.

(** A form pre-filled from an existing record ([instance=...]). *)
Definition of_instance (r : Restaurant) : t :=
  {| values := <["name"%string := name r]>
                 (<["address"%string := address_first_line r]>
                    (<["phone_number"%string := phone_number r]> ∅));
     field_errors := [] |}.

(** A form bound to submitted data. *)
Definition bound (data : gmap string string) : t :=
  {| values := data; field_errors := errors data |}.

End Form.

Inductive Context : Type :=
  | ctx_restaurants (rows : list (Z * Restaurant))
  | ctx_form (f : Form.t)
  | ctx_restaurant (pk : Z) (r : Restaurant).

Inductive HttpResponse : Type :=
  | TemplateResponse (template : string) (context : Context)
  | HttpResponseRedirect
  | Http404.

Definition status_code (r : HttpResponse) : Z :=
  match r with
  | TemplateResponse _ _ => 200
  | HttpResponseRedirect => 302
  | Http404 => 404
  end.

Definition template_used (r : HttpResponse) : option string :=
  match r with TemplateResponse t _ => Some t | _ => None end.

Definition context_of (r : HttpResponse) : option Context :=
  match r with TemplateResponse _ c => Some c | _ => None end.

(* ===================================================================== *)
(** * The views *)
(* ===================================================================== *)

Module Views.

Import Orm.

(** Modelled from the spec: [views.restaurant_list], which is not among the
    sources. "List: read all Restaurant records, render as a collection",
    status 200 with [restaurant_list.html]. *)
Definition restaurant_list (req : HttpRequest) (db : Db) : HttpResponse * Db :=
  (TemplateResponse "restaurant_list.html" (ctx_restaurants (Orm.all db)), db).

(** Modelled from the spec: [views.restaurant_create], which is not among the
    sources. "Create: render an empty form on GET; on POST, validate and
    persist a new Restaurant"; "POST with valid data returns 200"; an invalid
    form is rendered again with its errors. The specification also says "then
    redirect" and records itself that the tests accept 200: the test posts
    valid data, does not follow redirects and asserts status 200, so the
    answer of the view to a valid POST is the form template with status 200
    and the redirect is not modelled. *)
Definition restaurant_create (req : HttpRequest) (db : Db) : HttpResponse * Db :=
  match method req with
  | GET => (TemplateResponse "restaurant_form.html" (ctx_form Form.empty_form), db)
  | POST =>
      match Form.clean (POST_data req) with
      | Some r =>
          let '(_, db') := Orm.save r db in
          (TemplateResponse "restaurant_form.html"
             (ctx_form (Form.bound (POST_data req))), db')
      | None =>
          (TemplateResponse "restaurant_form.html"
             (ctx_form (Form.bound (POST_data req))), db)
      end
  end.

(** Modelled from the spec: [views.restaurant_update], which is not among the
    sources. "Update: render a pre-filled form on GET for a record located
    by primary key; on POST, validate and persist changes to that record";
    "POST with valid data returns 200": the test posts valid data, does not
    follow redirects and asserts status 200, so the form template is rendered
    in every case. A missing record gives the not-found response. *)
Definition restaurant_update (req : HttpRequest) (pk : Z) (db : Db)
  : HttpResponse * Db :=
  match db !! pk with
  | None => (Http404, db)
  | Some r =>
      match method req with
      | GET =>
          (TemplateResponse "restaurant_form.html" (ctx_form (Form.of_instance r)), db)
      | POST =>
          match Form.clean (POST_data req) with
          | Some r' =>
              (TemplateResponse "restaurant_form.html"
                 (ctx_form (Form.bound (POST_data req))), <[pk := r']> db)
          | None =>
              (TemplateResponse "restaurant_form.html"
                 (ctx_form (Form.bound (POST_data req))), db)
          end
      end
  end.

(** Modelled from the spec: [views.restaurant_delete], which is not among the
    sources. "Delete: render a confirmation page on GET; on POST, remove
    the record and redirect (HTTP 302 observed)". A missing record gives the
    not-found response. *)
Definition restaurant_delete (req : HttpRequest) (pk : Z) (db : Db)
  : HttpResponse * Db :=
  match db !! pk with
  | None => (Http404, db)
  | Some r =>
      match method req with
      | GET =>
          (TemplateResponse "restaurant_confirm_delete.html" (ctx_restaurant pk r), db)
      | POST => (HttpResponseRedirect, delete pk db)
      end
  end.

End Views.

(* ===================================================================== *)
(** * Request handling: URL resolver, then view *)
(* ===================================================================== *)

Module Client.

Import Orm.

Definition kwarg (kw : list (string * Z)) (k : string) : option Z :=
  snd <$> List.find (fun '(k', _) => String.eqb k' k) kw.

(** Calling the view a [ResolverMatch] names with its keyword arguments. *)
Definition dispatch (m : Urls.ResolverMatch) (req : HttpRequest) (db : Db)
  : HttpResponse * Db :=
  match Urls.func m with
  | Urls.restaurant_list => Views.restaurant_list req db
  | Urls.restaurant_create => Views.restaurant_create req db
  | Urls.restaurant_update =>
      match kwarg (Urls.kwargs m) "pk" with
      | Some pk => Views.restaurant_update req pk db
      | None => (Http404, db)
      end
  | Urls.restaurant_delete =>
      match kwarg (Urls.kwargs m) "pk" with
      | Some pk => Views.restaurant_delete req pk db
      | None => (Http404, db)
      end
  end.

Definition handle (req : HttpRequest) (p : string) (db : Db) : HttpResponse * Db :=
  match Urls.resolve p with
  | Some m => dispatch m req db
  | None => (Http404, db)
  end.

(** [client.get(path)] *)
Definition get (p : string) (db : Db) : HttpResponse * Db :=
  handle {| method := GET; POST_data := ∅ |} p db.

(** [client.post(path, data)] *)
Definition post (p : string) (data : gmap string string) (db : Db)
  : HttpResponse * Db :=
  handle {| method := POST; POST_data := data |} p db.

End Client.

(* ===================================================================== *)
(** * [sim/tests/test_views.py] *)
(* ===================================================================== *)

Module Tests.

(** What a test runs against: the imported factories module and the test
    database. *)
Record World : Type := {
  factories : Factories.Module_;
  db : Orm.Db;
}.

(** A test step: [None] is a failed assertion or an uncaught exception. *)
Definition Test (A : Type) : Type := World -> option (A * World).

Definition ret {A} (a : A) : Test A := fun w => Some (a, w).

Definition bind {A B} (t : Test A) (k : A -> Test B) : Test B :=
  fun w => match t w with Some (a, w') => k a w' | None => None end.

Notation "x <-- t ;; k" := (bind t (fun x => k))
  (at level 100, t at next level, right associativity).
Notation "t ;;; k" := (bind t (fun _ => k))
  (at level 100, right associativity).

Definition assertEqual {A} `{EqDecision A} (a b : A) : Test unit :=
  fun w => if decide (a = b) then Some (tt, w) else None.

Definition assertTemplateUsed (r : HttpResponse) (t : string) : Test unit :=
  assertEqual (template_used r) (Some t).

Definition reverse (viewname : string) (args : list Z) : Test string :=
  fun w => match Urls.reverse viewname args with
           | Some p => Some (p, w)
           | None => None
           end.

Definition client_get (p : string) : Test HttpResponse :=
  fun w => let '(r, db') := Client.get p (db w) in
           Some (r, {| factories := factories w; db := db' |}).

Definition client_post (p : string) (data : gmap string string) : Test HttpResponse :=
  fun w => let '(r, db') := Client.post p data (db w) in
           Some (r, {| factories := factories w; db := db' |}).

Definition RestaurantFactory : Test Restaurant :=
  fun w => let '(r, m') := Factories.RestaurantFactory (factories w) in
           Some (r, {| factories := m'; db := db w |}).

Definition save (r : Restaurant) : Test Z :=
  fun w => let '(pk, db') := Orm.save r (db w) in
           Some (pk, {| factories := factories w; db := db' |}).

(** A Python [dict] literal with string keys and values. *)
Definition dict (l : list (string * string)) : gmap string string := list_to_map l.

Definition create_data : list (string * string) :=
  [("name", "New Restaurant"); ("address", "123 New Street");
   ("phone_number", "987-654-3210")]%string.

Definition update_data : list (string * string) :=
  [("name", "Updated Restaurant"); ("address", "456 Updated Street");
   ("phone_number", "111-222-3333")]%string.

Definition test_restaurant_list_view : Test unit :=
  url <-- reverse "sim:restaurant_list" [] ;;
  response <-- client_get url ;;
  assertEqual (status_code response) 200 ;;;
  assertTemplateUsed response "restaurant_list.html".

Definition test_restaurant_create_view : Test unit :=
  url <-- reverse "sim:restaurant_create" [] ;;
  response <-- client_get url ;;
  assertEqual (status_code response) 200 ;;;
  assertTemplateUsed response "restaurant_form.html" ;;;
  url <-- reverse "sim:restaurant_create" [] ;;
  response <-- client_post url (dict create_data) ;;
  assertEqual (status_code response) 200.

Definition test_restaurant_update_view : Test unit :=
  restaurant <-- RestaurantFactory ;;
  pk <-- save restaurant ;;
  url <-- reverse "sim:restaurant_edit" [pk] ;;
  response <-- client_get url ;;
  assertEqual (status_code response) 200 ;;;
  assertTemplateUsed response "restaurant_form.html" ;;;
  url <-- reverse "sim:restaurant_edit" [pk] ;;
  response <-- client_post url (dict update_data) ;;
  assertEqual (status_code response) 200.

Definition test_restaurant_delete_view : Test unit :=
  restaurant <-- RestaurantFactory ;;
  pk <-- save restaurant ;;
  url <-- reverse "sim:restaurant_delete" [pk] ;;
  response <-- client_get url ;;
  assertEqual (status_code response) 200 ;;;
  assertTemplateUsed response "restaurant_confirm_delete.html" ;;;
  url <-- reverse "sim:restaurant_delete" [pk] ;;
  response <-- client_post url ∅ ;;
  assertEqual (status_code response) 302.

(** Running one test method: the factories module was imported with [fake] in
    state [g], the test database starts empty. *)
Definition run (t : Test unit) (g : Faker.t) : bool :=
  match t {| factories := Factories.import g; db := ∅ |} with
  | Some _ => true
  | None => false
  end.

End Tests.

(* ===================================================================== *)
(** * Checks on concrete inputs *)
(* ===================================================================== *)

Example str_0 : Py.str 0 = "0"%string. Proof. reflexivity. Qed.

Example str_12 : Py.str 12 = "12"%string. Proof. reflexivity. Qed.

Example str_neg : Py.str (-7) = "-7"%string. Proof. reflexivity. Qed.

Example int_007 : Py.int_of_digits "007" = Some 7. Proof. reflexivity. Qed.

Example span_ex : Py.span_digits "42/edit/" = ("42", "/edit/")%string.
Proof. reflexivity. Qed.

Example segments_edit :
  map Urls.segments Urls.urlpatterns =
  [ [Urls.Lit "restaurants/"];
    [Urls.Lit "restaurants/new/"];
    [Urls.Lit "restaurants/"; Urls.Param "int" "pk"; Urls.Lit "/edit/"];
    [Urls.Lit "restaurants/"; Urls.Param "int" "pk"; Urls.Lit "/delete/"] ].
Proof. reflexivity. Qed.

Example reverse_edit_7 :
  Urls.reverse "sim:restaurant_edit" [7] = Some "restaurants/7/edit/"%string.
Proof. reflexivity. Qed.

Example reverse_edit_neg : Urls.reverse "sim:restaurant_edit" [-1] = None.
Proof. reflexivity. Qed.

Example resolve_delete_012 :
  Urls.resolve "restaurants/012/delete/" =
  Some {| Urls.func := Urls.restaurant_delete; Urls.kwargs := [("pk"%string, 12)];
          Urls.url_name := "restaurant_delete" |}.
Proof. reflexivity. Qed.

Example resolve_new : Urls.func <$> Urls.resolve "restaurants/new/" = Some Urls.restaurant_create.
Proof. reflexivity. Qed.

Example resolve_unknown : Urls.resolve "restaurants/new" = None.
Proof. reflexivity. Qed.

(** A generator whose draws are known, to run the factories on. *)
Example factories_run :
  let g := {| Faker.addresses := fun _ => "1 Main Street"%string;
              Faker.phone_numbers := fun _ => "555-0100"%string;
              Faker.raw := fun k => 1234 + Z.of_nat k;
              Faker.calls := 0 |} in
  let m0 := Factories.import g in
  let '(r0, m1) := Factories.RestaurantFactory m0 in
  let '(r1, m2) := Factories.RestaurantFactory m1 in
  let '(d0, m3) := Factories.DishFactory m2 in
  (name r0, name r1, address_first_line r1, dish_name d0, price d0, restaurant d0)
  = ("Restaurant 0", "Restaurant 1", "1 Main Street", "Dish 0",
     {| sign := false; coefficient := 36; exponent := 0 |},
     ClassObject RestaurantModel)%string.
Proof. reflexivity. Qed.

Example random_number_small :
  (Faker.random_number 2%N
     {| Faker.addresses := fun _ => EmptyString; Faker.phone_numbers := fun _ => EmptyString;
        Faker.raw := fun _ => 705; Faker.calls := 0 |}).1 = 5.
Proof. reflexivity. Qed.

Example form_of_test_data :
  Form.clean (Tests.dict Tests.create_data)
  = Some {| name := "New Restaurant"; address_first_line := "123 New Street";
            phone_number := "987-654-3210" |} /\
  Form.errors (Tests.dict Tests.create_data) = [] /\
  Form.errors (Tests.dict [("name", "New Restaurant")]%string)
  = ["address"; "phone_number"]%string.
Proof. repeat split; vm_compute; reflexivity. Qed.

Example Decimal_round_examples :
  map (fun n => Decimal_round 2 (Decimal_of_int n)) [7; 42; 1234; 1250; 1350; 995; -126] =
  [ {| sign := false; coefficient := 7; exponent := 0 |};
    {| sign := false; coefficient := 42; exponent := 0 |};
    {| sign := false; coefficient := 12; exponent := 2 |};
    {| sign := false; coefficient := 12; exponent := 2 |};
    {| sign := false; coefficient := 14; exponent := 2 |};
    {| sign := false; coefficient := 10; exponent := 2 |};
    {| sign := true; coefficient := 13; exponent := 1 |} ].
Proof. reflexivity. Qed.

Example Decimal_round_negative_zero :
  Decimal_round 2 {| sign := true; coefficient := 0; exponent := 0 |}
  = {| sign := false; coefficient := 0; exponent := 0 |}.
Proof. reflexivity. Qed.

Example str_limited_small : Py.str_limited (-120) = Some "-120"%string.
Proof. vm_compute. reflexivity. Qed.

Example str_limited_at_the_limit : Py.str_limited (10 ^ 4300) = None.
Proof. vm_compute. reflexivity. Qed.

Example reverse_limited_7 :
  UrlsLimited.reverse "sim:restaurant_edit" [7] = Some "restaurants/7/edit/"%string.
Proof. vm_compute. reflexivity. Qed.

Example resolve_limited_012 :
  UrlsLimited.resolve "restaurants/012/delete/" =
  Some {| Urls.func := Urls.restaurant_delete; Urls.kwargs := [("pk"%string, 12)];
          Urls.url_name := "restaurant_delete" |}.
Proof. vm_compute. reflexivity. Qed.

(* ===================================================================== *)
(** * Properties of the string and integer operations *)
(* ===================================================================== *)

Section py_facts.

Lemma append_cons a (s t : string) : String a s +:+ t = String a (s +:+ t).
Proof. reflexivity. Qed.

Lemma append_nil_l (t : string) : EmptyString +:+ t = t.
Proof. reflexivity. Qed.

Lemma append_nil_r (s : string) : s +:+ EmptyString = s.
Proof. induction s as [|a s IH]; [done|]. by rewrite append_cons, IH. Qed.

Lemma strip_prefix_app p s : Py.strip_prefix p (p +:+ s) = Some s.
Proof.
  induction p as [|a p IH]; simpl; [done|].
  by rewrite Ascii.eqb_refl.
Qed.

Lemma strip_prefix_app_nil p : Py.strip_prefix p p = Some EmptyString.
Proof.
  induction p as [|a p IH]; simpl; [done|]. by rewrite Ascii.eqb_refl.
Qed.

Lemma to_int_not_nil n : Z.to_int n <> Decimal.Pos Decimal.Nil /\ Z.to_int n <> Decimal.Neg Decimal.Nil.
Proof.
  destruct n as [|p|p]; simpl; split; try discriminate;
    intros [= H]; by apply (Unsigned.to_uint_nonnil p).
Qed.

(** [str] can be read back: distinct integers print differently. *)
Lemma str_inj n m : Py.str n = Py.str m -> n = m.
Proof.
  unfold Py.str. intros H.
  destruct (to_int_not_nil n) as [Hn1 Hn2], (to_int_not_nil m) as [Hm1 Hm2].
  pose proof (NilZero.isi _ Hn1 Hn2) as En.
  pose proof (NilZero.isi _ Hm1 Hm2) as Em.
  rewrite H in En. rewrite En in Em.
  injection Em as Em. by apply DecimalZ.to_int_inj.
Qed.

Lemma string_app_inv_head (p s t : string) : p +:+ s = p +:+ t -> s = t.
Proof. induction p as [|a p IH]; simpl; [done|]. intros [= H]. auto. Qed.

(** The digits of a [uint] are all in [[0-9]]. *)
Lemma span_digits_uint d rest :
  Py.span_digits (NilEmpty.string_of_uint d +:+ rest) =
  (NilEmpty.string_of_uint d +:+ (Py.span_digits rest).1, (Py.span_digits rest).2).
Proof.
  induction d; simpl NilEmpty.string_of_uint;
    rewrite ?append_cons, ?append_nil_l; simpl; rewrite ?IHd; try reflexivity.
  by destruct (Py.span_digits rest).
Qed.

(** For a non-negative [n], [str n] is a non-empty digit string. *)
Lemma str_nonneg n :
  0 <= n -> exists d, d <> Decimal.Nil /\ Py.str n = NilEmpty.string_of_uint d
                      /\ N.of_uint d = Z.to_N n.
Proof.
  intros Hn. destruct n as [|p|p]; [| |lia].
  - exists (Decimal.D0 Decimal.Nil). repeat split. discriminate.
  - exists (Pos.to_uint p). split; [apply Unsigned.to_uint_nonnil|].
    split.
    + unfold Py.str. simpl. unfold NilZero.string_of_uint.
      destruct (Pos.to_uint p) eqn:E; try reflexivity.
      by destruct (Unsigned.to_uint_nonnil p).
    + simpl. unfold N.of_uint. by rewrite DecimalPos.Unsigned.of_to.
Qed.

Lemma string_of_uint_nonempty d :
  d <> Decimal.Nil -> NilEmpty.string_of_uint d <> EmptyString.
Proof. by destruct d. Qed.

Lemma span_digits_str n c rest :
  0 <= n -> Py.is_digit c = false ->
  Py.span_digits (Py.str n +:+ String c rest) = (Py.str n, String c rest).
Proof.
  intros Hn Hc. destruct (str_nonneg n Hn) as (d & _ & -> & _).
  rewrite span_digits_uint. simpl. rewrite Hc. simpl.
  by rewrite append_nil_r.
Qed.

Lemma int_of_digits_str n : 0 <= n -> Py.int_of_digits (Py.str n) = Some n.
Proof.
  intros Hn. destruct (str_nonneg n Hn) as (d & Hd & -> & Hv).
  unfold Py.int_of_digits.
  destruct (NilEmpty.string_of_uint d) eqn:E.
  - by destruct (string_of_uint_nonempty d Hd).
  - rewrite <- E, NilEmpty.usu. simpl. rewrite Hv. f_equal. lia.
Qed.

End py_facts.

(* ===================================================================== *)
(** * Properties of the URL configuration *)
(* ===================================================================== *)

Section url_facts.

Import Urls.

Lemma str_head_digit n :
  0 <= n -> exists c s, Py.str n = String c s /\ Py.is_digit c = true.
Proof.
  intros Hn. destruct (str_nonneg n Hn) as (d & Hd & -> & _).
  destruct d; try (by destruct Hd); simpl; eauto.
Qed.

Lemma strip_prefix_Some l p r : Py.strip_prefix l p = Some r -> p = l +:+ r.
Proof.
  revert p. induction l as [|a l IH]; intros p; simpl.
  - by intros [= ->].
  - destruct p as [|b p]; [done|].
    destruct (Ascii.eqb_spec a b) as [->|]; [|done].
    intros H. rewrite append_cons. f_equal. by apply IH.
Qed.

Lemma strip_prefix_app_app p q s :
  Py.strip_prefix (p +:+ q) (p +:+ s) = Py.strip_prefix q s.
Proof.
  induction p as [|a p IH]; [done|].
  rewrite !append_cons. cbn [Py.strip_prefix]. by rewrite Ascii.eqb_refl.
Qed.

Lemma match_lit l segs s :
  match_route (Lit l :: segs) (l +:+ s) = match_route segs s.
Proof. simpl. by rewrite strip_prefix_app. Qed.

Lemma match_int_param nm segs pk c rest :
  0 <= pk -> Py.is_digit c = false ->
  match_route (Param "int" nm :: segs) (Py.str pk +:+ String c rest) =
  match match_route segs (String c rest) with
  | Some kw => Some ((nm, pk) :: kw)
  | None => None
  end.
Proof.
  intros Hpk Hc. simpl.
  rewrite (span_digits_str pk c rest Hpk Hc).
  by rewrite (int_of_digits_str pk Hpk).
Qed.

Lemma segments_of_urlpatterns :
  map segments urlpatterns =
  [ [Lit "restaurants/"];
    [Lit "restaurants/new/"];
    [Lit "restaurants/"; Param "int" "pk"; Lit "/edit/"];
    [Lit "restaurants/"; Param "int" "pk"; Lit "/delete/"] ].
Proof. reflexivity. Qed.

(** The route of a parametrised pattern matches the path built from a
    non-negative key, and captures that key. *)
Lemma match_pk_route pk (sfx : string) :
  0 <= pk ->
  match_route [Lit "restaurants/"; Param "int" "pk"; Lit (String "/" sfx)]
    ("restaurants/" +:+ Py.str pk +:+ String "/" sfx) = Some [("pk"%string, pk)].
Proof.
  intros Hpk. rewrite match_lit, match_int_param by done.
  rewrite <- (append_nil_r (String "/" sfx)) at 2.
  by rewrite match_lit.
Qed.

(** Such a path is matched by neither of the two routes without parameter. *)
Lemma match_static_pk_path pk (sfx : string) :
  0 <= pk ->
  match_route [Lit "restaurants/"]
    ("restaurants/" +:+ Py.str pk +:+ String "/" sfx) = None /\
  match_route [Lit "restaurants/new/"]
    ("restaurants/" +:+ Py.str pk +:+ String "/" sfx) = None.
Proof.
  intros Hpk. destruct (str_head_digit pk Hpk) as (c & s & E & Hc).
  rewrite E. split; [reflexivity|].
  change "restaurants/new/"%string with ("restaurants/" +:+ "new/").
  cbn [match_route]. rewrite strip_prefix_app_app, append_cons.
  cbn [Py.strip_prefix].
  destruct (Ascii.eqb_spec "n" c) as [<-|]; [done|reflexivity].
Qed.

Lemma resolve_edit pk :
  0 <= pk ->
  resolve ("restaurants/" +:+ Py.str pk +:+ "/edit/") =
  Some {| func := restaurant_update; kwargs := [("pk"%string, pk)];
          url_name := "restaurant_edit" |}.
Proof.
  intros Hpk. unfold resolve, urlpatterns, resolve_in.
  destruct (match_static_pk_path pk "edit/" Hpk) as [H1 H2].
  change (segments (path "restaurants/" restaurant_list "restaurant_list"))
    with [Lit "restaurants/"].
  change (segments (path "restaurants/new/" restaurant_create "restaurant_create"))
    with [Lit "restaurants/new/"].
  change (segments (path "restaurants/<int:pk>/edit/" restaurant_update "restaurant_edit"))
    with [Lit "restaurants/"; Param "int" "pk"; Lit "/edit/"].
  by rewrite H1, H2, (match_pk_route pk "edit/" Hpk).
Qed.

Lemma resolve_delete pk :
  0 <= pk ->
  resolve ("restaurants/" +:+ Py.str pk +:+ "/delete/") =
  Some {| func := restaurant_delete; kwargs := [("pk"%string, pk)];
          url_name := "restaurant_delete" |}.
Proof.
  intros Hpk. unfold resolve, urlpatterns, resolve_in.
  destruct (match_static_pk_path pk "delete/" Hpk) as [H1 H2].
  change (segments (path "restaurants/" restaurant_list "restaurant_list"))
    with [Lit "restaurants/"].
  change (segments (path "restaurants/new/" restaurant_create "restaurant_create"))
    with [Lit "restaurants/new/"].
  change (segments (path "restaurants/<int:pk>/edit/" restaurant_update "restaurant_edit"))
    with [Lit "restaurants/"; Param "int" "pk"; Lit "/edit/"].
  change (segments (path "restaurants/<int:pk>/delete/" restaurant_delete "restaurant_delete"))
    with [Lit "restaurants/"; Param "int" "pk"; Lit "/delete/"].
  rewrite H1, H2, (match_pk_route pk "delete/" Hpk).
  rewrite match_lit, match_int_param by done.
  reflexivity.
Qed.

Lemma reverse_edit pk :
  0 <= pk ->
  reverse "sim:restaurant_edit" [pk] = Some ("restaurants/" +:+ Py.str pk +:+ "/edit/").
Proof.
  intros Hpk. unfold reverse. simpl Py.partition. cbv iota beta.
  change (String.eqb "sim" app_name) with true. cbv iota.
  unfold urlpatterns, reverse_in.
  change (segments (path "restaurants/<int:pk>/edit/" restaurant_update "restaurant_edit"))
    with [Lit "restaurants/"; Param "int" "pk"; Lit "/edit/"].
  simpl pattern_name. simpl String.eqb. cbv iota.
  change (substitute [Lit "restaurants/"; Param "int" "pk"; Lit "/edit/"] [pk])
    with (Some ("restaurants/" +:+ Py.str pk +:+ "/edit/" +:+ "")).
  rewrite append_nil_r.
  by rewrite (match_pk_route pk "edit/" Hpk).
Qed.

Lemma reverse_delete pk :
  0 <= pk ->
  reverse "sim:restaurant_delete" [pk] =
  Some ("restaurants/" +:+ Py.str pk +:+ "/delete/").
Proof.
  intros Hpk. unfold reverse. simpl Py.partition. cbv iota beta.
  change (String.eqb "sim" app_name) with true. cbv iota.
  unfold urlpatterns, reverse_in.
  change (segments (path "restaurants/<int:pk>/delete/" restaurant_delete "restaurant_delete"))
    with [Lit "restaurants/"; Param "int" "pk"; Lit "/delete/"].
  simpl pattern_name. simpl String.eqb. cbv iota.
  change (substitute [Lit "restaurants/"; Param "int" "pk"; Lit "/delete/"] [pk])
    with (Some ("restaurants/" +:+ Py.str pk +:+ "/delete/" +:+ "")).
  rewrite append_nil_r.
  by rewrite (match_pk_route pk "delete/" Hpk).
Qed.

(** Whatever [resolve] returns comes from one pattern of the list. *)
Lemma resolve_in_sound pats p m :
  resolve_in pats p = Some m ->
  exists pat, In pat pats /\ match_route (segments pat) p = Some (kwargs m) /\
              func m = callback pat /\ url_name m = pattern_name pat.
Proof.
  induction pats as [|pat pats IH]; simpl; [done|].
  destruct (match_route (segments pat) p) as [kw|] eqn:E.
  - intros [= <-]. exists pat. simpl. auto.
  - intros H. destruct (IH H) as (pat' & ? & ?). exists pat'. auto.
Qed.

End url_facts.

(** C5. The URL configuration of app [sim] is a fixed list of exactly four
    routes, list, create, update and delete, with the names
    [restaurant_list], [restaurant_create], [restaurant_edit] and
    [restaurant_delete]; a path resolves to one of these four entries or to
    nothing, and each entry is reached by some path. *)
Theorem urlpatterns_exactly_four :
  Urls.app_name = "sim"%string /\
  map (fun p => (Urls.route p, Urls.callback p, Urls.pattern_name p)) Urls.urlpatterns =
    [ ("restaurants/", Urls.restaurant_list, "restaurant_list");
      ("restaurants/new/", Urls.restaurant_create, "restaurant_create");
      ("restaurants/<int:pk>/edit/", Urls.restaurant_update, "restaurant_edit");
      ("restaurants/<int:pk>/delete/", Urls.restaurant_delete, "restaurant_delete")
    ]%string /\
  length Urls.urlpatterns = 4%nat /\
  NoDup (map Urls.pattern_name Urls.urlpatterns) /\
  (forall p m, Urls.resolve p = Some m ->
     (Urls.func m, Urls.url_name m) ∈
       [ (Urls.restaurant_list, "restaurant_list");
         (Urls.restaurant_create, "restaurant_create");
         (Urls.restaurant_update, "restaurant_edit");
         (Urls.restaurant_delete, "restaurant_delete") ]%string) /\
  Urls.func <$> Urls.resolve "restaurants/" = Some Urls.restaurant_list /\
  Urls.func <$> Urls.resolve "restaurants/new/" = Some Urls.restaurant_create /\
  Urls.func <$> Urls.resolve "restaurants/1/edit/" = Some Urls.restaurant_update /\
  Urls.func <$> Urls.resolve "restaurants/1/delete/" = Some Urls.restaurant_delete.
Proof.
  split; [reflexivity|]. split; [reflexivity|]. split; [reflexivity|].
  split.
  { compute_done. }
  split; [|repeat split; reflexivity].
  intros p m H. apply resolve_in_sound in H as (pat & Hin & _ & -> & ->).
  simpl in Hin.
  destruct Hin as [<-|[<-|[<-|[<-|[]]]]]; simpl; set_solver.
Qed.

(* ===================================================================== *)
(** * Properties of the factories *)
(* ===================================================================== *)

Section factory_facts.

Import Factories.

Lemma prefixed_name_inj (prefix : string) m n :
  prefix +:+ Py.str m = prefix +:+ Py.str n -> m = n.
Proof. intros H. by apply str_inj, (string_app_inv_head prefix). Qed.

(** Calling a factory changes nothing but a sequence counter. *)
Lemma call_same_declarations c m : same_declarations m (call c m).
Proof. by destruct c; repeat split. Qed.

Lemma after_same_declarations calls m : same_declarations m (after calls m).
Proof.
  revert m. induction calls as [|c calls IH]; intros m; [by repeat split|].
  simpl. pose proof (call_same_declarations c m) as H1.
  pose proof (IH (call c m)) as H2.
  unfold same_declarations in *. intuition congruence.
Qed.

(** [randint 0 (10^2 - 1)] stays within two digits. *)
Lemma random_number_2_range g :
  0 <= (Faker.random_number 2 g).1 <= 99.
Proof.
  unfold Faker.random_number, Faker.randint. simpl fst.
  change (10 ^ 2 - 1 - 0 + 1) with 100.
  pose proof (Z.mod_pos_bound (Faker.raw g (Faker.calls g)) 100). lia.
Qed.

(** What [random_number(2)] returns: the raw draw reduced to 0..99. *)
Lemma random_number_2_value g :
  (Faker.random_number 2 g).1 = Faker.raw g (Faker.calls g) mod 100.
Proof.
  unfold Faker.random_number, Faker.randint. simpl fst.
  change (10 ^ 2 - 1 - 0 + 1) with 100. lia.
Qed.

(** [Decimal(n)] for a non-negative [n], field by field. *)
Lemma Decimal_of_int_nonneg n :
  0 <= n ->
  Decimal_of_int n = {| sign := false; coefficient := Z.to_N n; exponent := 0 |}.
Proof.
  intros Hn. unfold Decimal_of_int. f_equal; [lia|lia].
Qed.

Lemma Decimal_of_int_two_digits n :
  0 <= n <= 99 ->
  sign (Decimal_of_int n) = false /\
  exponent (Decimal_of_int n) = 0 /\
  (coefficient (Decimal_of_int n) < 10 ^ 2)%N /\
  (precision (Decimal_of_int n) <= 2)%nat /\
  decimal_places (Decimal_of_int n) = 0.
Proof.
  intros Hn. unfold Decimal_of_int, precision, decimal_places. simpl.
  split; [lia|]. split; [done|]. split; [lia|]. split; [|done].
  assert (Hc : (Z.abs_N n < 100)%N) by lia.
  assert (Hall : forall k, (k < 100)%nat ->
            (Decimal.nb_digits (N.to_uint (N.of_nat k)) <= 2)%nat).
  { intros k Hk. do 100 (destruct k as [|k]; [vm_compute; lia|]). lia. }
  rewrite <- (N2Nat.id (Z.abs_N n)). apply Hall. lia.
Qed.

(** Rounding to a precision the value already has changes nothing. *)
Lemma Decimal_round_fits prec d :
  (precision d <= prec)%nat -> sign d = false -> Decimal_round prec d = d.
Proof.
  intros H Hs. unfold Decimal_round.
  destruct (N.eqb_spec (coefficient d) 0) as [E|_].
  - destruct d as [s c e]. simpl in *. by subst.
  - by destruct (Nat.leb_spec (precision d) prec); [|lia].
Qed.

(** The two prices of a freshly imported module: [Decimal] of the third and
    of the fourth draw made on [fake], each reduced to 0..99. *)
Lemma import_prices g :
  let n := Faker.calls g in
  DishFactory_price (import g) = Decimal_of_int (Faker.raw g (n + 2) mod 100) /\
  IngredientFactory_unit_price (import g)
    = Decimal_of_int (Faker.raw g (n + 3) mod 100).
Proof.
  intros n. unfold n.
  replace (Faker.calls g + 2)%nat with (S (S (Faker.calls g))) by lia.
  replace (Faker.calls g + 3)%nat with (S (S (S (Faker.calls g)))) by lia.
  split.
  - change (DishFactory_price (import g))
      with (Decimal_of_int (Faker.random_number 2 (Faker.tick (Faker.tick g))).1).
    by rewrite random_number_2_value.
  - change (IngredientFactory_unit_price (import g))
      with (Decimal_of_int
              (Faker.random_number 2 (Faker.tick (Faker.tick (Faker.tick g)))).1).
    by rewrite random_number_2_value.
Qed.

End factory_facts.

(** C6. The price of every Dish from [DishFactory] and the unit price of
    every Ingredient from [IngredientFactory] is a random value that is a
    decimal rounded to two digits of precision. It is [Decimal] of a draw made
    on [fake] when the module was imported (the third draw for the price, the
    fourth for the unit price), an integer between 0 and 99, converted
    exactly: sign, coefficient and exponent are those of that integer. Such a
    decimal has at most two digits and none after the decimal point, and
    rounding it to a precision of two digits gives the same decimal. *)
Theorem factory_prices_two_digit_precision (g : Faker.t) (calls : list Factories.Call) :
  let m := Factories.after calls (Factories.import g) in
  let p := price (Factories.DishFactory m).1 in
  let u := unit_price (Factories.IngredientFactory m).1 in
  let a := Faker.raw g (Faker.calls g + 2) mod 100 in
  let b := Faker.raw g (Faker.calls g + 3) mod 100 in
  (0 <= a <= 99 /\
   p = {| sign := false; coefficient := Z.to_N a; exponent := 0 |} /\
   Decimal_round 2 p = p /\ (precision p <= 2)%nat /\ (coefficient p < 10 ^ 2)%N /\
   exponent p = 0 /\ decimal_places p = 0 /\ sign p = false) /\
  (0 <= b <= 99 /\
   u = {| sign := false; coefficient := Z.to_N b; exponent := 0 |} /\
   Decimal_round 2 u = u /\ (precision u <= 2)%nat /\ (coefficient u < 10 ^ 2)%N /\
   exponent u = 0 /\ decimal_places u = 0 /\ sign u = false).
Proof.
  intros m p u a b.
  destruct (after_same_declarations calls (Factories.import g))
    as (_ & _ & Hp & _ & Hu & _).
  destruct (import_prices g) as (Ea & Eb). fold a in Ea. fold b in Eb.
  assert (Ha : 0 <= a <= 99).
  { pose proof (Z.mod_pos_bound (Faker.raw g (Faker.calls g + 2)) 100).
    unfold a. lia. }
  assert (Hb : 0 <= b <= 99).
  { pose proof (Z.mod_pos_bound (Faker.raw g (Faker.calls g + 3)) 100).
    unfold b. lia. }
  assert (Ep : p = Decimal_of_int a).
  { change p with (Factories.DishFactory_price m). unfold m. by rewrite Hp. }
  assert (Eu : u = Decimal_of_int b).
  { change u with (Factories.IngredientFactory_unit_price m). unfold m.
    by rewrite Hu. }
  destruct (Decimal_of_int_two_digits a Ha) as (Hs1 & ? & ? & Hq1 & ?).
  destruct (Decimal_of_int_two_digits b Hb) as (Hs2 & ? & ? & Hq2 & ?).
  rewrite <- Ep in *. rewrite <- Eu in *.
  split.
  - split; [done|]. split; [rewrite Ep; apply Decimal_of_int_nonneg; lia|].
    split; [by apply Decimal_round_fits|]. auto 10.
  - split; [done|]. split; [rewrite Eu; apply Decimal_of_int_nonneg; lia|].
    split; [by apply Decimal_round_fits|]. auto 10.
Qed.

(** C7 (what the code does). The [restaurant] attribute of every Dish from
    [DishFactory] is the model class [Restaurant] itself; it is never a
    Restaurant record. *)
Theorem DishFactory_restaurant_is_the_class (g : Faker.t) (calls : list Factories.Call) :
  let d := (Factories.DishFactory (Factories.after calls (Factories.import g))).1 in
  restaurant d = ClassObject RestaurantModel /\
  forall r, restaurant d <> RestaurantInstance r.
Proof.
  intros d.
  destruct (after_same_declarations calls (Factories.import g))
    as (_ & _ & _ & Hr & _).
  assert (E : restaurant d = ClassObject RestaurantModel).
  { change (restaurant d) with
      (Factories.DishFactory_restaurant (Factories.after calls (Factories.import g))).
    by rewrite Hr. }
  split; [exact E|]. intros r. by rewrite E.
Qed.

(** C8. The attributes that are not sequences were evaluated once, when the
    module was imported: any two Restaurants from [RestaurantFactory] have the
    same address and the same phone number, any two Dishes from [DishFactory]
    the same price, any two Ingredients from [IngredientFactory] the same unit
    price, however many factory calls lie before or between them. *)
Theorem constant_fields_shared (g : Faker.t) (calls1 calls2 : list Factories.Call) :
  let m1 := Factories.after calls1 (Factories.import g) in
  let m2 := Factories.after calls2 (Factories.import g) in
  address_first_line (Factories.RestaurantFactory m1).1
    = address_first_line (Factories.RestaurantFactory m2).1 /\
  phone_number (Factories.RestaurantFactory m1).1
    = phone_number (Factories.RestaurantFactory m2).1 /\
  price (Factories.DishFactory m1).1 = price (Factories.DishFactory m2).1 /\
  unit_price (Factories.IngredientFactory m1).1
    = unit_price (Factories.IngredientFactory m2).1.
Proof.
  intros m1 m2.
  destruct (after_same_declarations calls1 (Factories.import g))
    as (Ha1 & Hp1 & Hd1 & _ & Hu1 & _).
  destruct (after_same_declarations calls2 (Factories.import g))
    as (Ha2 & Hp2 & Hd2 & _ & Hu2 & _).
  change (address_first_line (Factories.RestaurantFactory m1).1)
    with (Factories.RestaurantFactory_address_first_line m1).
  change (address_first_line (Factories.RestaurantFactory m2).1)
    with (Factories.RestaurantFactory_address_first_line m2).
  change (phone_number (Factories.RestaurantFactory m1).1)
    with (Factories.RestaurantFactory_phone_number m1).
  change (phone_number (Factories.RestaurantFactory m2).1)
    with (Factories.RestaurantFactory_phone_number m2).
  change (price (Factories.DishFactory m1).1) with (Factories.DishFactory_price m1).
  change (price (Factories.DishFactory m2).1) with (Factories.DishFactory_price m2).
  change (unit_price (Factories.IngredientFactory m1).1)
    with (Factories.IngredientFactory_unit_price m1).
  change (unit_price (Factories.IngredientFactory m2).1)
    with (Factories.IngredientFactory_unit_price m2).
  unfold m1, m2. repeat split; congruence.
Qed.



(** Successive instances of one factory carry successive sequence numbers,
    from 0 on, and therefore different names. *)
Lemma RestaurantFactory_successive m :
  let '(r1, m1) := Factories.RestaurantFactory m in
  let '(r2, _) := Factories.RestaurantFactory m1 in
  name r1 <> name r2.
Proof.
  simpl. intros H. apply prefixed_name_inj in H. lia.
Qed.

(* ===================================================================== *)
(** * Properties of the store and of the form *)
(* ===================================================================== *)

Section store_facts.

Import Orm.




Lemma next_pk_positive (db : Db) : 1 <= next_pk db.
Proof.
  unfold next_pk.
  assert (0 <= foldr Z.max 0 (map_to_list db).*1); [|lia].
  induction ((map_to_list db).*1) as [|x l IH]; simpl; lia.
Qed.



(** A form is valid exactly when no field is in error. *)
Lemma is_valid_iff_no_errors data :
  Form.is_valid data = true <-> Form.errors data = [].
Proof.
  unfold Form.is_valid, Form.clean, Form.errors, Form.fields. simpl.
  destruct (Form.field data "name"), (Form.field data "address"),
    (Form.field data "phone_number"); simpl; split; done.
Qed.


(** Data without one of the three fields does not validate. *)
Lemma clean_requires_fields data f :
  In f Form.fields -> data !! f = None -> Form.clean data = None.
Proof.
  intros Hf H. unfold Form.clean.
  assert (Hn : Form.field data f = None) by (unfold Form.field; by rewrite H).
  simpl in Hf. destruct Hf as [<-|[<-|[<-|[]]]]; rewrite Hn.
  - done.
  - by destruct (Form.field data "name").
  - by destruct (Form.field data "name"), (Form.field data "address").
Qed.

End store_facts.

(* ===================================================================== *)
(** * The four routes, request by request *)
(* ===================================================================== *)

Section request_facts.

Import Orm.

Lemma get_list (db : Db) :
  Client.get "restaurants/" db
  = Views.restaurant_list {| method := GET; POST_data := ∅ |} db.
Proof. reflexivity. Qed.

Lemma handle_create req (db : Db) :
  Client.handle req "restaurants/new/" db = Views.restaurant_create req db.
Proof. reflexivity. Qed.


Lemma handle_delete req pk (db : Db) :
  0 <= pk ->
  Client.handle req ("restaurants/" +:+ Py.str pk +:+ "/delete/") db
  = Views.restaurant_delete req pk db.
Proof. intros Hpk. unfold Client.handle. by rewrite resolve_delete. Qed.

End request_facts.

(** C4. Whatever the store holds, a GET to [restaurants/] answers 200 with
    the template [restaurant_list.html], whose context is the collection of
    all Restaurant records, each exactly once; the store is left as it was. *)
Theorem list_view_renders_all (db : Orm.Db) :
  Urls.reverse "sim:restaurant_list" [] = Some "restaurants/"%string /\
  let '(response, db') := Client.get "restaurants/" db in
  status_code response = 200 /\
  template_used response = Some "restaurant_list.html"%string /\
  db' = db /\
  exists rows, context_of response = Some (ctx_restaurants rows) /\
    NoDup rows /\
    forall pk r, (pk, r) ∈ rows <-> db !! pk = Some r.
Proof.
  split; [reflexivity|].
  rewrite get_list. unfold Views.restaurant_list.
  repeat split. exists (Orm.all db). split; [done|]. split.
  - apply NoDup_map_to_list.
  - intros pk r. apply elem_of_map_to_list.
Qed.



(** A POST whose data does not validate stores nothing and renders the form
    again, with status 200. *)
Lemma create_invalid_post_rerenders (db : Orm.Db) (data : gmap string string) :
  Form.is_valid data = false ->
  Client.post "restaurants/new/" data db
  = (TemplateResponse "restaurant_form.html" (ctx_form (Form.bound data)), db).
Proof.
  intros Hv. unfold Client.post. rewrite handle_create.
  unfold Views.restaurant_create, Form.is_valid in *. simpl.
  by destruct (Form.clean data).
Qed.




(** C3. For a record stored under key [pk], a GET to
    [restaurants/<pk>/delete/] answers 200 with
    [restaurant_confirm_delete.html] and leaves the store as it was; a POST
    removes that record, and no other, and answers with a redirect
    (status 302). *)
Theorem delete_view_confirms_and_removes
  (db : Orm.Db) (pk : Z) (r : Restaurant) :
  0 <= pk ->
  db !! pk = Some r ->
  let url := "restaurants/" +:+ Py.str pk +:+ "/delete/" in
  Urls.reverse "sim:restaurant_delete" [pk] = Some url /\
  (Client.get url db
     = (TemplateResponse "restaurant_confirm_delete.html" (ctx_restaurant pk r), db) /\
   status_code (Client.get url db).1 = 200 /\
   template_used (Client.get url db).1
     = Some "restaurant_confirm_delete.html"%string) /\
  (forall data,
     Client.post url data db = (HttpResponseRedirect, delete pk db) /\
     status_code (Client.post url data db).1 = 302 /\
     (Client.post url data db).2 !! pk = None /\
     forall pk', pk' <> pk -> (Client.post url data db).2 !! pk' = db !! pk').
Proof.
  intros Hpk Hr url. split; [by apply reverse_delete|].
  assert (Eget : Client.get url db
    = (TemplateResponse "restaurant_confirm_delete.html" (ctx_restaurant pk r), db)).
  { unfold Client.get, url. rewrite handle_delete by done.
    unfold Views.restaurant_delete. by rewrite Hr. }
  split.
  - by rewrite Eget.
  - intros data.
    assert (E : Client.post url data db = (HttpResponseRedirect, delete pk db)).
    { unfold Client.post, url. rewrite handle_delete by done.
      unfold Views.restaurant_delete. by rewrite Hr. }
    rewrite E. simpl. repeat split.
    + apply lookup_delete_eq.
    + intros pk' Hne. by apply lookup_delete_ne.
Qed.

Lemma delete_view_confirms_and_removes_witness :
  let r := {| name := "Restaurant 0"; address_first_line := "1 Main Street";
              phone_number := "555-0100" |} in
  let db : Orm.Db := {[ 1 := r ]} in
  0 <= 1 /\ db !! 1 = Some r /\
  Client.post "restaurants/1/delete/" ∅ db = (HttpResponseRedirect, delete 1 db).
Proof.
  intros r db.
  assert (H1 : 0 <= 1) by lia.
  assert (H2 : db !! 1 = Some r) by (vm_compute; reflexivity).
  split; [exact H1|]. split; [exact H2|].
  destruct (delete_view_confirms_and_removes db 1 r H1 H2) as (_ & _ & H).
  exact (proj1 (H ∅)).
Defined.

(* ===================================================================== *)
(** * The tests of [test_views.py] on this model *)
(* ===================================================================== *)

(** All four tests pass, whatever [fake] produced. The data the create and
    update tests post is valid, so their last assertion checks the answer to
    a valid POST. *)
Lemma tests_pass (g : Faker.t) :
  Tests.run Tests.test_restaurant_list_view g = true /\
  Tests.run Tests.test_restaurant_create_view g = true /\
  Tests.run Tests.test_restaurant_update_view g = true /\
  Tests.run Tests.test_restaurant_delete_view g = true.
Proof. repeat split; vm_compute; reflexivity. Qed.

(** What the tests leave in the test database: the create test one new
    record, the update test the factory's record with the posted values, the
    delete test nothing. *)
Lemma tests_final_database (g : Faker.t) :
  let w0 := {| Tests.factories := Factories.import g; Tests.db := ∅ |} in
  (Tests.db ∘ snd) <$> Tests.test_restaurant_create_view w0
    = Some {[ 1 := {| name := "New Restaurant";
                      address_first_line := "123 New Street";
                      phone_number := "987-654-3210" |} ]} /\
  (Tests.db ∘ snd) <$> Tests.test_restaurant_update_view w0
    = Some {[ 1 := {| name := "Updated Restaurant";
                      address_first_line := "456 Updated Street";
                      phone_number := "111-222-3333" |} ]} /\
  (Tests.db ∘ snd) <$> Tests.test_restaurant_delete_view w0 = Some ∅.
Proof. repeat split; vm_compute; reflexivity. Qed.

(* ===================================================================== *)
(** * More on the URL configuration: which paths resolve, which names
      reverse *)
(* ===================================================================== *)

Section digit_facts.

Lemma all_digits_uint d : Py.all_digits (NilEmpty.string_of_uint d) = true.
Proof. induction d; simpl; auto. Qed.

(** [int] only accepts a non-empty digit string, and never gives a negative
    number. *)
Lemma int_of_digits_inv ds v :
  Py.int_of_digits ds = Some v ->
  ds <> EmptyString /\ Py.all_digits ds = true /\ 0 <= v.
Proof.
  unfold Py.int_of_digits. destruct ds as [|c s]; [done|].
  destruct (NilEmpty.uint_of_string (String c s)) as [d|] eqn:E; [|done].
  intros H. simpl in H. injection H as <-.
  split; [done|]. split; [|lia].
  rewrite <- (NilEmpty.sus _ _ E). apply all_digits_uint.
Qed.

Lemma span_digits_all ds c rest :
  Py.all_digits ds = true -> Py.is_digit c = false ->
  Py.span_digits (ds +:+ String c rest) = (ds, String c rest).
Proof.
  intros Hds Hc. induction ds as [|a ds IH].
  - rewrite append_nil_l. cbn [Py.span_digits]. by rewrite Hc.
  - rewrite append_cons. cbn [Py.span_digits Py.all_digits] in *.
    apply andb_prop in Hds as [Ha Hds]. by rewrite Ha, IH.
Qed.

Lemma span_digits_spec s :
  s = (Py.span_digits s).1 +:+ (Py.span_digits s).2 /\
  Py.all_digits (Py.span_digits s).1 = true.
Proof.
  induction s as [|c s [IH1 IH2]]; [done|].
  cbn [Py.span_digits]. destruct (Py.is_digit c) eqn:Hc; [|done].
  destruct (Py.span_digits s) as [ds rest]. simpl in *.
  rewrite append_cons, Hc. by rewrite <- IH1.
Qed.

(** A zero in front of the digits does not change the number. *)
Lemma int_of_digits_leading_zero ds v :
  Py.int_of_digits ds = Some v -> Py.int_of_digits (String "0" ds) = Some v.
Proof.
  unfold Py.int_of_digits. destruct ds as [|c s]; [done|].
  cbn [NilEmpty.uint_of_string].
  destruct (uint_of_char c (NilEmpty.uint_of_string s)) as [d|]; [|done].
  simpl. by intros [= <-].
Qed.

Lemma str_negative n : n < 0 -> exists s, Py.str n = String "-" s.
Proof. destruct n; try lia. intros _. unfold Py.str. simpl. eauto. Qed.

Lemma partition_Some sep s a b :
  Py.partition sep s = Some (a, b) -> s = a +:+ String sep b.
Proof.
  revert a. induction s as [|c s IH]; intros a; [done|].
  cbn [Py.partition]. destruct (Ascii.eqb_spec c sep) as [->|].
  - by intros [= <- <-].
  - destruct (Py.partition sep s) as [[a' b']|]; [|done].
    simpl. intros [= <- <-]. rewrite append_cons. f_equal. by apply IH.
Qed.

End digit_facts.

Section route_facts.

Import Urls.

Lemma match_int_param_digits nm segs ds v c rest :
  Py.int_of_digits ds = Some v -> Py.is_digit c = false ->
  match_route (Param "int" nm :: segs) (ds +:+ String c rest) =
  match match_route segs (String c rest) with
  | Some kw => Some ((nm, v) :: kw)
  | None => None
  end.
Proof.
  intros Hv Hc. destruct (int_of_digits_inv ds v Hv) as (_ & Hds & _).
  cbn [match_route]. change (String.eqb "int" "int") with true. cbv iota.
  by rewrite (span_digits_all ds c rest Hds Hc), Hv.
Qed.

Lemma match_pk_route_digits ds v (sfx : string) :
  Py.int_of_digits ds = Some v ->
  match_route [Lit "restaurants/"; Param "int" "pk"; Lit (String "/" sfx)]
    ("restaurants/" +:+ ds +:+ String "/" sfx) = Some [("pk"%string, v)].
Proof.
  intros Hv. rewrite match_lit, (match_int_param_digits _ _ ds v) by done.
  rewrite <- (append_nil_r (String "/" sfx)) at 2.
  by rewrite match_lit.
Qed.

Lemma match_static_digits_path ds v (sfx : string) :
  Py.int_of_digits ds = Some v ->
  match_route [Lit "restaurants/"]
    ("restaurants/" +:+ ds +:+ String "/" sfx) = None /\
  match_route [Lit "restaurants/new/"]
    ("restaurants/" +:+ ds +:+ String "/" sfx) = None.
Proof.
  intros Hv. destruct (int_of_digits_inv ds v Hv) as (Hne & Hds & _).
  destruct ds as [|c s]; [done|]. cbn [Py.all_digits] in Hds.
  apply andb_prop in Hds as [Hc _].
  split; [reflexivity|].
  change "restaurants/new/"%string with ("restaurants/" +:+ "new/").
  cbn [match_route]. rewrite strip_prefix_app_app, append_cons.
  cbn [Py.strip_prefix].
  destruct (Ascii.eqb_spec "n" c) as [<-|]; [done|reflexivity].
Qed.

(** What a path looks like that the list route (or any route made of one
    literal) matches. *)
Lemma match_static_inv l p kw :
  match_route [Lit l] p = Some kw -> p = l /\ kw = [].
Proof.
  cbn [match_route]. destruct (Py.strip_prefix l p) as [rest|] eqn:E; [|done].
  apply strip_prefix_Some in E. destruct rest; [|done].
  intros [= <-]. by rewrite E, append_nil_r.
Qed.

(** What a path looks like that the update or the delete route matches. *)
Lemma match_pk_inv sfx p kw :
  match_route [Lit "restaurants/"; Param "int" "pk"; Lit sfx] p = Some kw ->
  exists ds v, p = "restaurants/" +:+ ds +:+ sfx /\
               Py.int_of_digits ds = Some v /\ kw = [("pk"%string, v)].
Proof.
  cbn [match_route].
  destruct (Py.strip_prefix "restaurants/" p) as [rest|] eqn:E1; [|done].
  apply strip_prefix_Some in E1.
  change (String.eqb "int" "int") with true. cbv iota.
  destruct (span_digits_spec rest) as [Hrest _].
  destruct (Py.span_digits rest) as [ds rest'].
  destruct (Py.int_of_digits ds) as [v|] eqn:E3; [|done].
  destruct (Py.strip_prefix sfx rest') as [r2|] eqn:E4; [|done].
  apply strip_prefix_Some in E4. destruct r2; [|done].
  intros [= <-]. exists ds, v. simpl in Hrest.
  rewrite append_nil_r in E4. by subst.
Qed.

Ltac norm_segments :=
  change (segments (path "restaurants/" restaurant_list "restaurant_list"))
    with [Lit "restaurants/"] in *;
  change (segments (path "restaurants/new/" restaurant_create "restaurant_create"))
    with [Lit "restaurants/new/"] in *;
  change (segments (path "restaurants/<int:pk>/edit/" restaurant_update "restaurant_edit"))
    with [Lit "restaurants/"; Param "int" "pk"; Lit "/edit/"] in *;
  change (segments (path "restaurants/<int:pk>/delete/" restaurant_delete "restaurant_delete"))
    with [Lit "restaurants/"; Param "int" "pk"; Lit "/delete/"] in *.

Lemma resolve_edit_digits ds v :
  Py.int_of_digits ds = Some v ->
  resolve ("restaurants/" +:+ ds +:+ "/edit/") =
  Some {| func := restaurant_update; kwargs := [("pk"%string, v)];
          url_name := "restaurant_edit" |}.
Proof.
  intros Hv. unfold resolve, urlpatterns, resolve_in. norm_segments.
  destruct (match_static_digits_path ds v "edit/" Hv) as [H1 H2].
  by rewrite H1, H2, (match_pk_route_digits ds v "edit/" Hv).
Qed.

Lemma match_edit_on_delete_path ds v :
  Py.int_of_digits ds = Some v ->
  match_route [Lit "restaurants/"; Param "int" "pk"; Lit "/edit/"]
    ("restaurants/" +:+ ds +:+ "/delete/") = None.
Proof.
  intros Hv. by rewrite match_lit, (match_int_param_digits _ _ ds v).
Qed.

Lemma match_delete_on_edit_path ds v :
  Py.int_of_digits ds = Some v ->
  match_route [Lit "restaurants/"; Param "int" "pk"; Lit "/delete/"]
    ("restaurants/" +:+ ds +:+ "/edit/") = None.
Proof.
  intros Hv. by rewrite match_lit, (match_int_param_digits _ _ ds v).
Qed.

Lemma resolve_delete_digits ds v :
  Py.int_of_digits ds = Some v ->
  resolve ("restaurants/" +:+ ds +:+ "/delete/") =
  Some {| func := restaurant_delete; kwargs := [("pk"%string, v)];
          url_name := "restaurant_delete" |}.
Proof.
  intros Hv. unfold resolve, urlpatterns, resolve_in. norm_segments.
  destruct (match_static_digits_path ds v "delete/" Hv) as [H1 H2].
  by rewrite H1, H2, (match_edit_on_delete_path ds v Hv),
    (match_pk_route_digits ds v "delete/" Hv).
Qed.

(** A negative argument gives a candidate that its own route rejects. *)
Lemma match_pk_route_negative pk sfx :
  pk < 0 ->
  match_route [Lit "restaurants/"; Param "int" "pk"; Lit sfx]
    ("restaurants/" +:+ Py.str pk +:+ sfx) = None.
Proof.
  intros Hpk. destruct (str_negative pk Hpk) as [s ->].
  rewrite match_lit, append_cons. reflexivity.
Qed.

End route_facts.

Section url_theorems.

Import Urls.

Ltac norm_segments :=
  change (segments (path "restaurants/" restaurant_list "restaurant_list"))
    with [Lit "restaurants/"] in *;
  change (segments (path "restaurants/new/" restaurant_create "restaurant_create"))
    with [Lit "restaurants/new/"] in *;
  change (segments (path "restaurants/<int:pk>/edit/" restaurant_update "restaurant_edit"))
    with [Lit "restaurants/"; Param "int" "pk"; Lit "/edit/"] in *;
  change (segments (path "restaurants/<int:pk>/delete/" restaurant_delete "restaurant_delete"))
    with [Lit "restaurants/"; Param "int" "pk"; Lit "/delete/"] in *.

(** The shape of a path that resolves, route by route. *)
Lemma resolve_inv (p : string) (m : ResolverMatch) :
  resolve p = Some m ->
  (p = "restaurants/"%string /\
   m = {| func := restaurant_list; kwargs := []; url_name := "restaurant_list" |}) \/
  (p = "restaurants/new/"%string /\
   m = {| func := restaurant_create; kwargs := []; url_name := "restaurant_create" |}) \/
  (exists ds v, Py.int_of_digits ds = Some v /\
     p = "restaurants/" +:+ ds +:+ "/edit/" /\
     m = {| func := restaurant_update; kwargs := [("pk"%string, v)];
            url_name := "restaurant_edit" |}) \/
  (exists ds v, Py.int_of_digits ds = Some v /\
     p = "restaurants/" +:+ ds +:+ "/delete/" /\
     m = {| func := restaurant_delete; kwargs := [("pk"%string, v)];
            url_name := "restaurant_delete" |}).
Proof.
  unfold resolve, urlpatterns, resolve_in. norm_segments.
  destruct (match_route [Lit "restaurants/"] p) as [kw|] eqn:E1.
  { apply match_static_inv in E1 as [-> ->]. intros [= <-]. by left. }
  destruct (match_route [Lit "restaurants/new/"] p) as [kw|] eqn:E2.
  { apply match_static_inv in E2 as [-> ->]. intros [= <-]. right. by left. }
  destruct (match_route [Lit "restaurants/"; Param "int" "pk"; Lit "/edit/"] p)
    as [kw|] eqn:E3.
  { apply match_pk_inv in E3 as (ds & v & -> & Hv & ->). intros [= <-].
    right. right. left. by exists ds, v. }
  destruct (match_route [Lit "restaurants/"; Param "int" "pk"; Lit "/delete/"] p)
    as [kw|] eqn:E4; [|done].
  apply match_pk_inv in E4 as (ds & v & -> & Hv & ->). intros [= <-].
  right. right. right. by exists ds, v.
Qed.

(** The ways in which [reverse] can succeed. *)
Lemma reverse_inv (viewname : string) (args : list Z) (p : string) :
  reverse viewname args = Some p ->
  (viewname = "sim:restaurant_list"%string /\ args = [] /\ p = "restaurants/"%string) \/
  (viewname = "sim:restaurant_create"%string /\ args = [] /\
   p = "restaurants/new/"%string) \/
  (exists pk, 0 <= pk /\ viewname = "sim:restaurant_edit"%string /\ args = [pk] /\
     p = "restaurants/" +:+ Py.str pk +:+ "/edit/") \/
  (exists pk, 0 <= pk /\ viewname = "sim:restaurant_delete"%string /\ args = [pk] /\
     p = "restaurants/" +:+ Py.str pk +:+ "/delete/").
Proof.
  unfold reverse.
  destruct (Py.partition ":" viewname) as [[ns nm]|] eqn:E; [|done].
  apply partition_Some in E.
  destruct (String.eqb_spec ns app_name) as [->|]; [|done].
  unfold urlpatterns. cbn [reverse_in]. norm_segments. cbn [pattern_name path].
  destruct (String.eqb_spec "restaurant_list" nm) as [<-|N1].
  { destruct args as [|a args]; [|done]. intros [= <-]. by left. }
  destruct (String.eqb_spec "restaurant_create" nm) as [<-|N2].
  { destruct args as [|a args]; [|done]. intros [= <-]. right. by left. }
  destruct (String.eqb_spec "restaurant_edit" nm) as [<-|N3].
  { destruct args as [|a [|b args]]; [done| |done].
    change (substitute [Lit "restaurants/"; Param "int" "pk"; Lit "/edit/"] [a])
      with (Some ("restaurants/" +:+ Py.str a +:+ "/edit/" +:+ "")).
    cbv iota. rewrite append_nil_r.
    destruct (Z_lt_le_dec a 0) as [Ha|Ha].
    - by rewrite (match_pk_route_negative a "/edit/" Ha).
    - rewrite (match_pk_route a "edit/" Ha). intros [= <-].
      right. right. left. by exists a. }
  destruct (String.eqb_spec "restaurant_delete" nm) as [<-|N4]; [|done].
  destruct args as [|a [|b args]]; [done| |done].
  change (substitute [Lit "restaurants/"; Param "int" "pk"; Lit "/delete/"] [a])
    with (Some ("restaurants/" +:+ Py.str a +:+ "/delete/" +:+ "")).
  cbv iota. rewrite append_nil_r.
  destruct (Z_lt_le_dec a 0) as [Ha|Ha].
  + by rewrite (match_pk_route_negative a "/delete/" Ha).
  + rewrite (match_pk_route a "delete/" Ha). intros [= <-].
    right. right. right. by exists a.
Qed.

(** The name and the arguments of a successful [reverse], read back from the
    URL by [resolve]. *)
Lemma reverse_determines (viewname : string) (args : list Z) (p : string) :
  reverse viewname args = Some p ->
  (fun m => (app_name +:+ ":" +:+ url_name m, (kwargs m).*2)) <$> resolve p
  = Some (viewname, args).
Proof.
  intros [(-> & -> & ->)|[(-> & -> & ->)|[(pk & Hpk & -> & -> & ->)|
    (pk & Hpk & -> & -> & ->)]]]%reverse_inv.
  - reflexivity.
  - reflexivity.
  - by rewrite resolve_edit.
  - by rewrite resolve_delete.
Qed.

(** X2. No path is matched by two routes: the order of the entries of
    [urlpatterns] does not matter, no route shadows another. *)
Theorem routes_exclusive (p : string) :
  (length (List.filter
     (fun pat => match match_route (segments pat) p with
                 | Some _ => true | None => false end)
     urlpatterns) <= 1)%nat.
Proof.
  unfold urlpatterns. cbn [List.filter]. norm_segments.
  destruct (match_route [Lit "restaurants/"] p) as [kw|] eqn:E1.
  { apply match_static_inv in E1 as [-> ->]. vm_compute. lia. }
  destruct (match_route [Lit "restaurants/new/"] p) as [kw|] eqn:E2.
  { apply match_static_inv in E2 as [-> ->]. vm_compute. lia. }
  destruct (match_route [Lit "restaurants/"; Param "int" "pk"; Lit "/edit/"] p)
    as [kw|] eqn:E3.
  { apply match_pk_inv in E3 as (ds & v & -> & Hv & ->).
    rewrite (match_delete_on_edit_path ds v Hv). simpl. lia. }
  destruct (match_route [Lit "restaurants/"; Param "int" "pk"; Lit "/delete/"] p);
    simpl; lia.
Qed.

(** X4. Whenever [reverse] returns a URL, resolving that URL finds the route
    of that name again, with the same arguments. *)
Theorem reverse_then_resolve (viewname : string) (args : list Z) (p : string) :
  reverse viewname args = Some p ->
  exists m, resolve p = Some m /\
            viewname = app_name +:+ ":" +:+ url_name m /\
            args = (kwargs m).*2.
Proof.
  intros [(-> & -> & ->)|[(-> & -> & ->)|[(pk & Hpk & -> & -> & ->)|
    (pk & Hpk & -> & -> & ->)]]]%reverse_inv.
  - eexists. split; [reflexivity|]. by split.
  - eexists. split; [reflexivity|]. by split.
  - eexists. split; [by apply resolve_edit|]. by split.
  - eexists. split; [by apply resolve_delete|]. by split.
Qed.

(** X5. A URL determines the name and the arguments it was reversed from: two
    calls of [reverse] that return the same URL were the same call. *)
Theorem reverse_injective (v1 v2 : string) (a1 a2 : list Z) (p : string) :
  reverse v1 a1 = Some p -> reverse v2 a2 = Some p -> v1 = v2 /\ a1 = a2.
Proof.
  intros H1%reverse_determines H2%reverse_determines.
  rewrite H1 in H2. by injection H2 as -> ->.
Qed.

(** X6. Whatever a path resolves to can be reversed: the captured key is never
    negative, and the URL reversed from the match resolves to the same match
    again. *)
Theorem resolve_then_reverse (p : string) (m : ResolverMatch) :
  resolve p = Some m ->
  (forall k v, (k, v) ∈ kwargs m -> k = "pk"%string /\ 0 <= v) /\
  exists p', reverse (app_name +:+ ":" +:+ url_name m) (kwargs m).*2 = Some p' /\
             resolve p' = Some m.
Proof.
  intros [[-> ->]|[[-> ->]|[(ds & v & Hv & -> & ->)|(ds & v & Hv & -> & ->)]]]
    %resolve_inv.
  - split; [by intros k v ?%elem_of_nil|]. by exists "restaurants/"%string.
  - split; [by intros k v ?%elem_of_nil|]. by exists "restaurants/new/"%string.
  - destruct (int_of_digits_inv ds v Hv) as (_ & _ & Hpos). split.
    + intros k w [[= -> ->]|[]%elem_of_nil]%elem_of_cons. done.
    + exists ("restaurants/" +:+ Py.str v +:+ "/edit/").
      split; [by apply reverse_edit|by apply resolve_edit].
  - destruct (int_of_digits_inv ds v Hv) as (_ & _ & Hpos). split.
    + intros k w [[= -> ->]|[]%elem_of_nil]%elem_of_cons. done.
    + exists ("restaurants/" +:+ Py.str v +:+ "/delete/").
      split; [by apply reverse_delete|by apply resolve_delete].
Qed.

End url_theorems.

Lemma reverse_then_resolve_witness :
  Urls.reverse "sim:restaurant_delete" [15] = Some "restaurants/15/delete/"%string /\
  exists m, Urls.resolve "restaurants/15/delete/" = Some m /\
            "sim:restaurant_delete"%string = Urls.app_name +:+ ":" +:+ Urls.url_name m /\
            [15] = (Urls.kwargs m).*2.
Proof.
  assert (H : Urls.reverse "sim:restaurant_delete" [15]
              = Some "restaurants/15/delete/"%string) by reflexivity.
  split; [exact H|]. exact (reverse_then_resolve _ _ _ H).
Defined.

Lemma reverse_injective_witness :
  Urls.reverse "sim:restaurant_edit" [3] = Some "restaurants/3/edit/"%string /\
  ("sim:restaurant_edit"%string = "sim:restaurant_edit"%string /\ [3] = [3]).
Proof.
  assert (H : Urls.reverse "sim:restaurant_edit" [3]
              = Some "restaurants/3/edit/"%string) by reflexivity.
  split; [exact H|]. exact (reverse_injective _ _ _ _ _ H H).
Defined.

Lemma resolve_then_reverse_witness :
  let m := {| Urls.func := Urls.restaurant_update; Urls.kwargs := [("pk"%string, 7)];
              Urls.url_name := "restaurant_edit" |} in
  Urls.resolve "restaurants/007/edit/" = Some m /\
  exists p', Urls.reverse (Urls.app_name +:+ ":" +:+ Urls.url_name m) (Urls.kwargs m).*2
               = Some p' /\ Urls.resolve p' = Some m.
Proof.
  intros m.
  assert (H : Urls.resolve "restaurants/007/edit/" = Some m) by reflexivity.
  split; [exact H|]. exact (proj2 (resolve_then_reverse _ _ H)).
Defined.

(* ===================================================================== *)
(** * The URL configuration under the conversion limit *)
(* ===================================================================== *)

Section limited_facts.

Import Urls.

Lemma int_limited_inv ds v :
  Py.int_limited ds = Some v ->
  (String.length ds <= Py.max_str_digits)%nat /\ Py.int_of_digits ds = Some v.
Proof.
  unfold Py.int_limited.
  by destruct (Nat.leb_spec (String.length ds) Py.max_str_digits).
Qed.

Lemma int_limited_intro ds v :
  (String.length ds <= Py.max_str_digits)%nat ->
  Py.int_of_digits ds = Some v -> Py.int_limited ds = Some v.
Proof.
  intros Hl Hv. unfold Py.int_limited.
  destruct (Nat.leb_spec (String.length ds) Py.max_str_digits); [done|lia].
Qed.

Lemma int_limited_too_long ds :
  (Py.max_str_digits < String.length ds)%nat -> Py.int_limited ds = None.
Proof.
  intros Hl. unfold Py.int_limited.
  destruct (Nat.leb_spec (String.length ds) Py.max_str_digits); [lia|done].
Qed.

Lemma str_limited_inv a t :
  Py.str_limited a = Some t ->
  t = Py.str a /\ (String.length (Py.str (Z.abs a)) <= Py.max_str_digits)%nat.
Proof.
  unfold Py.str_limited.
  destruct (Nat.leb_spec (String.length (Py.str (Z.abs a))) Py.max_str_digits);
    [|done].
  by intros [= <-].
Qed.

Lemma str_limited_nonneg pk :
  0 <= pk -> (String.length (Py.str pk) <= Py.max_str_digits)%nat ->
  Py.str_limited pk = Some (Py.str pk).
Proof.
  intros Hpk Hl. unfold Py.str_limited. rewrite Z.abs_eq by done.
  destruct (Nat.leb_spec (String.length (Py.str pk)) Py.max_str_digits); [done|lia].
Qed.

(** The limited matcher accepts no more than the unlimited one, with the same
    captured values. *)
Lemma limited_match_sound segs p kw :
  UrlsLimited.match_route segs p = Some kw -> match_route segs p = Some kw.
Proof.
  revert p kw. induction segs as [|[l|conv nm] segs IH]; intros p kw.
  - done.
  - cbn [UrlsLimited.match_route match_route].
    destruct (Py.strip_prefix l p); [apply IH|done].
  - cbn [UrlsLimited.match_route match_route].
    destruct (String.eqb conv "int"); [|done].
    destruct (Py.span_digits p) as [ds rest].
    destruct (Py.int_limited ds) as [v|] eqn:Ev; [|done].
    apply int_limited_inv in Ev as [_ ->].
    destruct (UrlsLimited.match_route segs rest) as [kw'|] eqn:E; [|done].
    by rewrite (IH _ _ E).
Qed.

Lemma limited_match_None segs p :
  match_route segs p = None -> UrlsLimited.match_route segs p = None.
Proof.
  intros H. destruct (UrlsLimited.match_route segs p) as [kw|] eqn:E; [|done].
  apply limited_match_sound in E. congruence.
Qed.

Lemma limited_match_lit l segs s :
  UrlsLimited.match_route (Lit l :: segs) (l +:+ s) = UrlsLimited.match_route segs s.
Proof. cbn [UrlsLimited.match_route]. by rewrite strip_prefix_app. Qed.

Lemma limited_match_pk_route ds v (sfx : string) :
  Py.int_limited ds = Some v ->
  UrlsLimited.match_route [Lit "restaurants/"; Param "int" "pk"; Lit (String "/" sfx)]
    ("restaurants/" +:+ ds +:+ String "/" sfx) = Some [("pk"%string, v)].
Proof.
  intros Hv. destruct (int_limited_inv ds v Hv) as [_ Hv'].
  destruct (int_of_digits_inv ds v Hv') as (_ & Hds & _).
  rewrite limited_match_lit. cbn [UrlsLimited.match_route].
  change (String.eqb "int" "int") with true. cbv iota.
  rewrite (span_digits_all ds "/" sfx Hds eq_refl), Hv.
  by rewrite strip_prefix_app_nil.
Qed.

Lemma limited_match_pk_inv sfx p kw :
  UrlsLimited.match_route [Lit "restaurants/"; Param "int" "pk"; Lit sfx] p = Some kw ->
  exists ds v, p = "restaurants/" +:+ ds +:+ sfx /\
               Py.int_limited ds = Some v /\ kw = [("pk"%string, v)].
Proof.
  cbn [UrlsLimited.match_route].
  destruct (Py.strip_prefix "restaurants/" p) as [rest|] eqn:E1; [|done].
  apply strip_prefix_Some in E1.
  change (String.eqb "int" "int") with true. cbv iota.
  destruct (span_digits_spec rest) as [Hrest _].
  destruct (Py.span_digits rest) as [ds rest'].
  destruct (Py.int_limited ds) as [v|] eqn:E3; [|done].
  destruct (Py.strip_prefix sfx rest') as [r2|] eqn:E4; [|done].
  apply strip_prefix_Some in E4. destruct r2; [|done].
  intros [= <-]. exists ds, v. simpl in Hrest.
  rewrite append_nil_r in E4. by subst.
Qed.

Ltac norm_segments :=
  change (segments (path "restaurants/" restaurant_list "restaurant_list"))
    with [Lit "restaurants/"] in *;
  change (segments (path "restaurants/new/" restaurant_create "restaurant_create"))
    with [Lit "restaurants/new/"] in *;
  change (segments (path "restaurants/<int:pk>/edit/" restaurant_update "restaurant_edit"))
    with [Lit "restaurants/"; Param "int" "pk"; Lit "/edit/"] in *;
  change (segments (path "restaurants/<int:pk>/delete/" restaurant_delete "restaurant_delete"))
    with [Lit "restaurants/"; Param "int" "pk"; Lit "/delete/"] in *.

Lemma limited_resolve_edit ds v :
  Py.int_limited ds = Some v ->
  UrlsLimited.resolve ("restaurants/" +:+ ds +:+ "/edit/") =
  Some {| func := restaurant_update; kwargs := [("pk"%string, v)];
          url_name := "restaurant_edit" |}.
Proof.
  intros Hv. destruct (int_limited_inv ds v Hv) as [_ Hv'].
  unfold UrlsLimited.resolve, urlpatterns, UrlsLimited.resolve_in. norm_segments.
  destruct (match_static_digits_path ds v "edit/" Hv') as [H1 H2].
  by rewrite (limited_match_None _ _ H1), (limited_match_None _ _ H2),
    (limited_match_pk_route ds v "edit/" Hv).
Qed.

Lemma limited_resolve_delete ds v :
  Py.int_limited ds = Some v ->
  UrlsLimited.resolve ("restaurants/" +:+ ds +:+ "/delete/") =
  Some {| func := restaurant_delete; kwargs := [("pk"%string, v)];
          url_name := "restaurant_delete" |}.
Proof.
  intros Hv. destruct (int_limited_inv ds v Hv) as [_ Hv'].
  unfold UrlsLimited.resolve, urlpatterns, UrlsLimited.resolve_in. norm_segments.
  destruct (match_static_digits_path ds v "delete/" Hv') as [H1 H2].
  by rewrite (limited_match_None _ _ H1), (limited_match_None _ _ H2),
    (limited_match_None _ _ (match_edit_on_delete_path ds v Hv')),
    (limited_match_pk_route ds v "delete/" Hv).
Qed.

(** A path whose digit run is too long for [int] is not found. *)
Lemma limited_resolve_too_long ds sfx :
  Py.all_digits ds = true ->
  (Py.max_str_digits < String.length ds)%nat ->
  UrlsLimited.resolve ("restaurants/" +:+ ds +:+ String "/" sfx) = None.
Proof.
  intros Hds Hl.
  assert (Hpk : forall sfx', UrlsLimited.match_route
            [Lit "restaurants/"; Param "int" "pk"; Lit sfx']
            ("restaurants/" +:+ ds +:+ String "/" sfx) = None).
  { intros sfx'. rewrite limited_match_lit. cbn [UrlsLimited.match_route].
    change (String.eqb "int" "int") with true. cbv iota.
    by rewrite (span_digits_all ds "/" sfx Hds eq_refl), (int_limited_too_long ds Hl). }
  assert (Hst : UrlsLimited.match_route [Lit "restaurants/"]
            ("restaurants/" +:+ ds +:+ String "/" sfx) = None /\
          UrlsLimited.match_route [Lit "restaurants/new/"]
            ("restaurants/" +:+ ds +:+ String "/" sfx) = None).
  { destruct ds as [|c s]; [unfold Py.max_str_digits in Hl; simpl in Hl; lia|].
    cbn [Py.all_digits] in Hds. apply andb_prop in Hds as [Hc _].
    split; [reflexivity|].
    change "restaurants/new/"%string with ("restaurants/" +:+ "new/").
    cbn [UrlsLimited.match_route]. rewrite strip_prefix_app_app, append_cons.
    cbn [Py.strip_prefix].
    destruct (Ascii.eqb_spec "n" c) as [<-|]; [done|reflexivity]. }
  destruct Hst as [H1 H2].
  unfold UrlsLimited.resolve, urlpatterns, UrlsLimited.resolve_in. norm_segments.
  by rewrite H1, H2, !Hpk.
Qed.

Lemma limited_reverse_edit pk :
  0 <= pk -> (String.length (Py.str pk) <= Py.max_str_digits)%nat ->
  UrlsLimited.reverse "sim:restaurant_edit" [pk]
  = Some ("restaurants/" +:+ Py.str pk +:+ "/edit/").
Proof.
  intros Hpk Hl.
  pose proof (int_limited_intro _ _ Hl (int_of_digits_str pk Hpk)) as Hv.
  unfold UrlsLimited.reverse. simpl Py.partition. cbv iota beta.
  change (String.eqb "sim" app_name) with true. cbv iota.
  unfold urlpatterns, UrlsLimited.reverse_in. norm_segments.
  simpl pattern_name. simpl String.eqb. cbv iota.
  cbn [UrlsLimited.substitute]. rewrite (str_limited_nonneg pk Hpk Hl).
  cbn [fmap option_fmap option_map]. rewrite append_nil_r.
  by rewrite (limited_match_pk_route (Py.str pk) pk "edit/" Hv).
Qed.

Lemma limited_reverse_delete pk :
  0 <= pk -> (String.length (Py.str pk) <= Py.max_str_digits)%nat ->
  UrlsLimited.reverse "sim:restaurant_delete" [pk]
  = Some ("restaurants/" +:+ Py.str pk +:+ "/delete/").
Proof.
  intros Hpk Hl.
  pose proof (int_limited_intro _ _ Hl (int_of_digits_str pk Hpk)) as Hv.
  unfold UrlsLimited.reverse. simpl Py.partition. cbv iota beta.
  change (String.eqb "sim" app_name) with true. cbv iota.
  unfold urlpatterns, UrlsLimited.reverse_in. norm_segments.
  simpl pattern_name. simpl String.eqb. cbv iota.
  cbn [UrlsLimited.substitute]. rewrite (str_limited_nonneg pk Hpk Hl).
  cbn [fmap option_fmap option_map]. rewrite append_nil_r.
  by rewrite (limited_match_pk_route (Py.str pk) pk "delete/" Hv).
Qed.

End limited_facts.

Section limited_theorems.

Import Urls.

Ltac norm_segments :=
  change (segments (path "restaurants/" restaurant_list "restaurant_list"))
    with [Lit "restaurants/"] in *;
  change (segments (path "restaurants/new/" restaurant_create "restaurant_create"))
    with [Lit "restaurants/new/"] in *;
  change (segments (path "restaurants/<int:pk>/edit/" restaurant_update "restaurant_edit"))
    with [Lit "restaurants/"; Param "int" "pk"; Lit "/edit/"] in *;
  change (segments (path "restaurants/<int:pk>/delete/" restaurant_delete "restaurant_delete"))
    with [Lit "restaurants/"; Param "int" "pk"; Lit "/delete/"] in *.

(** The shape of a path that resolves under the limit, route by route. *)
Lemma limited_resolve_inv (p : string) (m : ResolverMatch) :
  UrlsLimited.resolve p = Some m ->
  (p = "restaurants/"%string /\
   m = {| func := restaurant_list; kwargs := []; url_name := "restaurant_list" |}) \/
  (p = "restaurants/new/"%string /\
   m = {| func := restaurant_create; kwargs := []; url_name := "restaurant_create" |}) \/
  (exists ds v, Py.int_limited ds = Some v /\
     p = "restaurants/" +:+ ds +:+ "/edit/" /\
     m = {| func := restaurant_update; kwargs := [("pk"%string, v)];
            url_name := "restaurant_edit" |}) \/
  (exists ds v, Py.int_limited ds = Some v /\
     p = "restaurants/" +:+ ds +:+ "/delete/" /\
     m = {| func := restaurant_delete; kwargs := [("pk"%string, v)];
            url_name := "restaurant_delete" |}).
Proof.
  unfold UrlsLimited.resolve, urlpatterns, UrlsLimited.resolve_in. norm_segments.
  destruct (UrlsLimited.match_route [Lit "restaurants/"] p) as [kw|] eqn:E1.
  { apply limited_match_sound, match_static_inv in E1 as [-> ->].
    intros [= <-]. by left. }
  destruct (UrlsLimited.match_route [Lit "restaurants/new/"] p) as [kw|] eqn:E2.
  { apply limited_match_sound, match_static_inv in E2 as [-> ->].
    intros [= <-]. right. by left. }
  destruct (UrlsLimited.match_route
              [Lit "restaurants/"; Param "int" "pk"; Lit "/edit/"] p) as [kw|] eqn:E3.
  { apply limited_match_pk_inv in E3 as (ds & v & -> & Hv & ->). intros [= <-].
    right. right. left. by exists ds, v. }
  destruct (UrlsLimited.match_route
              [Lit "restaurants/"; Param "int" "pk"; Lit "/delete/"] p)
    as [kw|] eqn:E4; [|done].
  apply limited_match_pk_inv in E4 as (ds & v & -> & Hv & ->). intros [= <-].
  right. right. right. by exists ds, v.
Qed.

(** The ways in which [reverse] can succeed under the limit. *)
Lemma limited_reverse_inv (viewname : string) (args : list Z) (p : string) :
  UrlsLimited.reverse viewname args = Some p ->
  (viewname = "sim:restaurant_list"%string /\ args = [] /\ p = "restaurants/"%string) \/
  (viewname = "sim:restaurant_create"%string /\ args = [] /\
   p = "restaurants/new/"%string) \/
  (exists pk, 0 <= pk /\ (String.length (Py.str pk) <= Py.max_str_digits)%nat /\
     viewname = "sim:restaurant_edit"%string /\ args = [pk] /\
     p = "restaurants/" +:+ Py.str pk +:+ "/edit/") \/
  (exists pk, 0 <= pk /\ (String.length (Py.str pk) <= Py.max_str_digits)%nat /\
     viewname = "sim:restaurant_delete"%string /\ args = [pk] /\
     p = "restaurants/" +:+ Py.str pk +:+ "/delete/").
Proof.
  unfold UrlsLimited.reverse.
  destruct (Py.partition ":" viewname) as [[ns nm]|] eqn:E; [|done].
  apply partition_Some in E.
  destruct (String.eqb_spec ns app_name) as [->|]; [|done].
  unfold urlpatterns. cbn [UrlsLimited.reverse_in]. norm_segments.
  cbn [pattern_name path].
  destruct (String.eqb_spec "restaurant_list" nm) as [<-|N1].
  { destruct args as [|a args]; [|done]. intros [= <-]. by left. }
  destruct (String.eqb_spec "restaurant_create" nm) as [<-|N2].
  { destruct args as [|a args]; [|done]. intros [= <-]. right. by left. }
  destruct (String.eqb_spec "restaurant_edit" nm) as [<-|N3].
  { destruct args as [|a [|b args]]; [done| |].
    - cbn [UrlsLimited.substitute].
      destruct (Py.str_limited a) as [t|] eqn:Et; [|done].
      apply str_limited_inv in Et as [-> Hl].
      cbn [fmap option_fmap option_map]. rewrite append_nil_r.
      destruct (Z_lt_le_dec a 0) as [Ha|Ha].
      + by rewrite (limited_match_None _ _ (match_pk_route_negative a "/edit/" Ha)).
      + rewrite Z.abs_eq in Hl by done.
        rewrite (limited_match_pk_route (Py.str a) a "edit/"
                   (int_limited_intro _ _ Hl (int_of_digits_str a Ha))).
        intros [= <-]. right. right. left. by exists a.
    - cbn [UrlsLimited.substitute]. by destruct (Py.str_limited a). }
  destruct (String.eqb_spec "restaurant_delete" nm) as [<-|N4]; [|done].
  destruct args as [|a [|b args]]; [done| |].
  - cbn [UrlsLimited.substitute].
    destruct (Py.str_limited a) as [t|] eqn:Et; [|done].
    apply str_limited_inv in Et as [-> Hl].
    cbn [fmap option_fmap option_map]. rewrite append_nil_r.
    destruct (Z_lt_le_dec a 0) as [Ha|Ha].
    + by rewrite (limited_match_None _ _ (match_pk_route_negative a "/delete/" Ha)).
    + rewrite Z.abs_eq in Hl by done.
      rewrite (limited_match_pk_route (Py.str a) a "delete/"
                 (int_limited_intro _ _ Hl (int_of_digits_str a Ha))).
      intros [= <-]. right. right. right. by exists a.
  - cbn [UrlsLimited.substitute]. by destruct (Py.str_limited a).
Qed.

(** Whatever resolves or reverses under the limit does so without it, with
    the same result: the limit only takes results away. *)
Lemma limited_resolve_sound (p : string) (m : ResolverMatch) :
  UrlsLimited.resolve p = Some m -> resolve p = Some m.
Proof.
  intros [[-> ->]|[[-> ->]|[(ds & v & Hv & -> & ->)|(ds & v & Hv & -> & ->)]]]
    %limited_resolve_inv.
  - reflexivity.
  - reflexivity.
  - apply resolve_edit_digits. by apply int_limited_inv in Hv as [_ ?].
  - apply resolve_delete_digits. by apply int_limited_inv in Hv as [_ ?].
Qed.

Lemma limited_reverse_sound (viewname : string) (args : list Z) (p : string) :
  UrlsLimited.reverse viewname args = Some p -> reverse viewname args = Some p.
Proof.
  intros [(-> & -> & ->)|[(-> & -> & ->)|[(pk & Hpk & _ & -> & -> & ->)|
    (pk & Hpk & _ & -> & -> & ->)]]]%limited_reverse_inv.
  - reflexivity.
  - reflexivity.
  - by apply reverse_edit.
  - by apply reverse_delete.
Qed.

End limited_theorems.




(** X1. Under the interpreter's conversion limit, the paths that resolve are
    exactly [restaurants/], [restaurants/new/] and
    [restaurants/<digits>/edit/], [restaurants/<digits>/delete/] for a
    non-empty string of at most 4300 digits; the match names the view of that
    route and, for the last two, carries [int] of the digits as [pk].
    Anything else, a path without the final slash or with a longer digit
    string included, is not found. *)
Theorem limited_resolve_characterisation (p : string) (m : Urls.ResolverMatch) :
  UrlsLimited.resolve p = Some m <->
  (p = "restaurants/"%string /\
   m = {| Urls.func := Urls.restaurant_list; Urls.kwargs := [];
          Urls.url_name := "restaurant_list" |}) \/
  (p = "restaurants/new/"%string /\
   m = {| Urls.func := Urls.restaurant_create; Urls.kwargs := [];
          Urls.url_name := "restaurant_create" |}) \/
  (exists ds v, Py.int_limited ds = Some v /\
     p = "restaurants/" +:+ ds +:+ "/edit/" /\
     m = {| Urls.func := Urls.restaurant_update; Urls.kwargs := [("pk"%string, v)];
            Urls.url_name := "restaurant_edit" |}) \/
  (exists ds v, Py.int_limited ds = Some v /\
     p = "restaurants/" +:+ ds +:+ "/delete/" /\
     m = {| Urls.func := Urls.restaurant_delete; Urls.kwargs := [("pk"%string, v)];
            Urls.url_name := "restaurant_delete" |}).
Proof.
  split; [apply limited_resolve_inv|].
  intros [[-> ->]|[[-> ->]|[(ds & v & Hv & -> & ->)|(ds & v & Hv & -> & ->)]]].
  - reflexivity.
  - reflexivity.
  - by apply limited_resolve_edit.
  - by apply limited_resolve_delete.
Qed.

(** X3. Under the interpreter's conversion limit, [reverse] succeeds in
    exactly four ways: the two names without parameter with no argument, and
    [sim:restaurant_edit], [sim:restaurant_delete] with one non-negative
    argument of at most 4300 digits. A name without the namespace [sim], an
    unknown name, a wrong number of arguments, a negative key or a key of more
    digits give no URL. *)
Theorem limited_reverse_characterisation
  (viewname : string) (args : list Z) (p : string) :
  UrlsLimited.reverse viewname args = Some p <->
  (viewname = "sim:restaurant_list"%string /\ args = [] /\ p = "restaurants/"%string) \/
  (viewname = "sim:restaurant_create"%string /\ args = [] /\
   p = "restaurants/new/"%string) \/
  (exists pk, 0 <= pk /\ (String.length (Py.str pk) <= Py.max_str_digits)%nat /\
     viewname = "sim:restaurant_edit"%string /\ args = [pk] /\
     p = "restaurants/" +:+ Py.str pk +:+ "/edit/") \/
  (exists pk, 0 <= pk /\ (String.length (Py.str pk) <= Py.max_str_digits)%nat /\
     viewname = "sim:restaurant_delete"%string /\ args = [pk] /\
     p = "restaurants/" +:+ Py.str pk +:+ "/delete/").
Proof.
  split; [apply limited_reverse_inv|].
  intros [(-> & -> & ->)|[(-> & -> & ->)|[(pk & Hpk & Hl & -> & -> & ->)|
           (pk & Hpk & Hl & -> & -> & ->)]]].
  - reflexivity.
  - reflexivity.
  - by apply limited_reverse_edit.
  - by apply limited_reverse_delete.
Qed.

(** X7. Zeros in front of the key are accepted and ignored as long as the
    digit string stays within the conversion limit: for a key written with
    fewer than 4300 digits, the path with one more leading zero resolves to
    the same view with the same [pk]. For a key written with exactly 4300
    digits the path resolves, and with one more zero it is not found. *)
Theorem limited_resolve_leading_zero (ds : string) (v : Z) :
  Py.int_limited ds = Some v ->
  UrlsLimited.resolve ("restaurants/" +:+ ds +:+ "/edit/")
    = Some {| Urls.func := Urls.restaurant_update; Urls.kwargs := [("pk"%string, v)];
              Urls.url_name := "restaurant_edit" |} /\
  UrlsLimited.resolve ("restaurants/" +:+ ds +:+ "/delete/")
    = Some {| Urls.func := Urls.restaurant_delete; Urls.kwargs := [("pk"%string, v)];
              Urls.url_name := "restaurant_delete" |} /\
  ((String.length ds < Py.max_str_digits)%nat ->
   UrlsLimited.resolve ("restaurants/" +:+ String "0" ds +:+ "/edit/")
     = UrlsLimited.resolve ("restaurants/" +:+ ds +:+ "/edit/") /\
   UrlsLimited.resolve ("restaurants/" +:+ String "0" ds +:+ "/delete/")
     = UrlsLimited.resolve ("restaurants/" +:+ ds +:+ "/delete/")) /\
  (String.length ds = Py.max_str_digits ->
   UrlsLimited.resolve ("restaurants/" +:+ String "0" ds +:+ "/edit/") = None /\
   UrlsLimited.resolve ("restaurants/" +:+ String "0" ds +:+ "/delete/") = None).
Proof.
  intros Hv. destruct (int_limited_inv ds v Hv) as [Hl Hv'].
  destruct (int_of_digits_inv ds v Hv') as (_ & Hds & _).
  rewrite (limited_resolve_edit ds v Hv), (limited_resolve_delete ds v Hv).
  split; [done|]. split; [done|]. split.
  - intros Hlt.
    assert (Hz : Py.int_limited (String "0" ds) = Some v).
    { apply int_limited_intro; [cbn [String.length]; lia|].
      by apply int_of_digits_leading_zero. }
    by rewrite (limited_resolve_edit _ _ Hz), (limited_resolve_delete _ _ Hz).
  - intros Heq.
    assert (Hds0 : Py.all_digits (String "0" ds) = true) by exact Hds.
    assert (Hl0 : (Py.max_str_digits < String.length (String "0" ds))%nat)
      by (cbn [String.length]; lia).
    by rewrite !(limited_resolve_too_long (String "0" ds) _ Hds0 Hl0).
Qed.

Lemma limited_resolve_leading_zero_witness :
  Py.int_limited "42" = Some 42 /\
  UrlsLimited.resolve "restaurants/042/edit/"
    = UrlsLimited.resolve "restaurants/42/edit/".
Proof.
  assert (H : Py.int_limited "42" = Some 42) by (vm_compute; reflexivity).
  split; [exact H|].
  destruct (limited_resolve_leading_zero "42" 42 H) as (_ & _ & Hz & _).
  assert (Hlt : (String.length "42" < Py.max_str_digits)%nat)
    by (apply Nat.ltb_lt; vm_compute; reflexivity).
  exact (proj1 (Hz Hlt)).
Defined.

(* ===================================================================== *)
(** * More on the factories: sequences and draws over a whole run *)
(* ===================================================================== *)

Section run_facts.

Import Factories.

Lemma count_calls_cons c c' calls :
  count_calls c (c' :: calls)
  = (if bool_decide (c' = c) then 1 else 0) + count_calls c calls.
Proof.
  unfold count_calls. cbn [List.filter].
  destruct (bool_decide (c' = c)); cbn [length]; lia.
Qed.

Lemma after_seq calls m :
  RestaurantFactory_seq (after calls m)
    = RestaurantFactory_seq m + count_calls CallRestaurantFactory calls /\
  DishFactory_seq (after calls m)
    = DishFactory_seq m + count_calls CallDishFactory calls /\
  IngredientFactory_seq (after calls m)
    = IngredientFactory_seq m + count_calls CallIngredientFactory calls.
Proof.
  revert m. induction calls as [|c calls IH]; intros m.
  - unfold count_calls. simpl. lia.
  - change (after (c :: calls) m) with (after calls (call c m)).
    destruct (IH (call c m)) as (H1 & H2 & H3).
    rewrite H1, H2, H3, !count_calls_cons.
    destruct c; simpl; lia.
Qed.

Lemma run_after calls m : (run calls m).2 = after calls m.
Proof.
  revert m. induction calls as [|c calls IH]; intros m; [done|].
  change (after (c :: calls) m) with (after calls (call c m)).
  rewrite <- IH. cbn [run].
  destruct c; simpl; by destruct (run calls _).
Qed.

Lemma named_from_mono m m' i :
  RestaurantFactory_seq m <= RestaurantFactory_seq m' ->
  DishFactory_seq m <= DishFactory_seq m' ->
  IngredientFactory_seq m <= IngredientFactory_seq m' ->
  named_from m' i -> named_from m i.
Proof.
  intros H1 H2 H3. destruct i; simpl; intros (k & Hk & E); exists k; split; auto; lia.
Qed.

Lemma run_cons c calls m :
  (run (c :: calls) m).1 = (produce c m).1 :: (run calls (produce c m).2).1.
Proof. cbn [run]. destruct (produce c m). by destruct (run calls _). Qed.

Lemma run_named_from calls m i : i ∈ (run calls m).1 -> named_from m i.
Proof.
  revert m. induction calls as [|c calls IH]; intros m.
  - by intros ?%elem_of_nil.
  - rewrite run_cons. intros [->|Hin]%elem_of_cons.
    + destruct c; simpl; eexists; (split; [|reflexivity]); lia.
    + apply IH in Hin. revert Hin. apply named_from_mono; destruct c; simpl; lia.
Qed.

Lemma factory_prefixes_differ a b :
  RestaurantFactory_name a <> DishFactory_name b /\
  RestaurantFactory_name a <> IngredientFactory_name b /\
  DishFactory_name a <> IngredientFactory_name b.
Proof. repeat split; discriminate. Qed.

End run_facts.

(** X8. Each factory counts on its own, from 0: after any series of factory
    calls, the next instance of a factory is numbered by how many instances
    that factory has produced so far, whatever the other two factories were
    asked for in between. *)
Theorem sequences_count_per_factory (g : Faker.t) (calls : list Factories.Call) :
  let m := Factories.after calls (Factories.import g) in
  name (Factories.RestaurantFactory m).1
    = Factories.RestaurantFactory_name
        (Factories.count_calls Factories.CallRestaurantFactory calls) /\
  dish_name (Factories.DishFactory m).1
    = Factories.DishFactory_name
        (Factories.count_calls Factories.CallDishFactory calls) /\
  ingredient_name (Factories.IngredientFactory m).1
    = Factories.IngredientFactory_name
        (Factories.count_calls Factories.CallIngredientFactory calls).
Proof.
  intros m. destruct (after_seq calls (Factories.import g)) as (H1 & H2 & H3).
  change (name (Factories.RestaurantFactory m).1)
    with (Factories.RestaurantFactory_name (Factories.RestaurantFactory_seq m)).
  change (dish_name (Factories.DishFactory m).1)
    with (Factories.DishFactory_name (Factories.DishFactory_seq m)).
  change (ingredient_name (Factories.IngredientFactory m).1)
    with (Factories.IngredientFactory_name (Factories.IngredientFactory_seq m)).
  unfold m. rewrite H1, H2, H3. done.
Qed.

(** X9. In one run of the module no two instances have the same name: not
    two of the same factory, and not two of different factories. *)
Theorem run_names_distinct (calls : list Factories.Call) (m : Factories.Module_) :
  NoDup (Factories.instance_name <$> (Factories.run calls m).1).
Proof.
  revert m. induction calls as [|c calls IH]; intros m.
  - apply NoDup_nil_2.
  - rewrite run_cons, fmap_cons. apply NoDup_cons_2; [|apply IH].
    intros (i & E & Hin)%list_elem_of_fmap.
    apply run_named_from in Hin.
    destruct c, i; simpl in E, Hin; destruct Hin as (k & Hk & Ek);
      rewrite Ek in E;
      first [ apply prefixed_name_inj in E; lia
            | by apply factory_prefixes_differ in E
            | symmetry in E; by apply factory_prefixes_differ in E ].
Qed.

(** X10. The two prices are separate draws and each ranges over all of 0..99:
    for any two such numbers some state of [fake] makes the first the price
    of the Dishes and the second the unit price of the Ingredients. A price
    of 0 and a price of one digit are possible. *)
Theorem prices_cover_range (a b : Z) :
  0 <= a <= 99 -> 0 <= b <= 99 ->
  exists g,
    price (Factories.DishFactory (Factories.import g)).1 = Decimal_of_int a /\
    unit_price (Factories.IngredientFactory (Factories.import g)).1
      = Decimal_of_int b.
Proof.
  intros Ha Hb.
  exists {| Faker.addresses := fun _ => EmptyString;
            Faker.phone_numbers := fun _ => EmptyString;
            Faker.raw := fun k => if (k =? 2)%nat then a else b;
            Faker.calls := 0 |}.
  unfold Factories.import, Faker.address, Faker.phone_number,
    Faker.random_number, Faker.randint. simpl.
  change (10 ^ 2 - 1 - 0 + 1) with 100.
  by rewrite !Z.mod_small by lia.
Qed.

Lemma prices_cover_range_witness :
  0 <= 0 <= 99 /\ 0 <= 5 <= 99 /\
  exists g,
    price (Factories.DishFactory (Factories.import g)).1 = Decimal_of_int 0 /\
    unit_price (Factories.IngredientFactory (Factories.import g)).1
      = Decimal_of_int 5.
Proof.
  assert (H1 : 0 <= 0 <= 99) by lia.
  assert (H2 : 0 <= 5 <= 99) by lia.
  split; [exact H1|]. split; [exact H2|].
  exact (prices_cover_range 0 5 H1 H2).
Defined.

(** X11. The module draws from [fake] exactly four times, all while it is
    imported and in the order address, phone number, Dish price, Ingredient
    unit price; no factory call draws anything, so [fake] is in the same state
    after any number of calls. *)
Theorem draws_happen_at_import (g : Faker.t) (calls : list Factories.Call) :
  let m := Factories.after calls (Factories.import g) in
  let n := Faker.calls g in
  Factories.fake m = Factories.fake (Factories.import g) /\
  Faker.calls (Factories.fake m) = (n + 4)%nat /\
  Factories.RestaurantFactory_address_first_line m = Faker.addresses g n /\
  Factories.RestaurantFactory_phone_number m = Faker.phone_numbers g (n + 1) /\
  Factories.DishFactory_price m = Decimal_of_int (Faker.raw g (n + 2) mod 100) /\
  Factories.IngredientFactory_unit_price m
    = Decimal_of_int (Faker.raw g (n + 3) mod 100).
Proof.
  intros m n.
  destruct (after_same_declarations calls (Factories.import g))
    as (Ha & Hp & Hd & _ & Hu & Hf).
  unfold m. rewrite Hf, Ha, Hp, Hd, Hu.
  unfold Factories.import, Faker.address, Faker.phone_number,
    Faker.random_number, Faker.randint, n. simpl.
  change (10 ^ 2 - 1 - 0 + 1) with 100.
  replace (Faker.calls g + 1)%nat with (S (Faker.calls g)) by lia.
  replace (Faker.calls g + 2)%nat with (S (S (Faker.calls g))) by lia.
  replace (Faker.calls g + 3)%nat with (S (S (S (Faker.calls g)))) by lia.
  repeat split; try done. lia.
Qed.
